(** * GD32 Zephyr board scripts: test-plan selection and local build runner

    A shallow embedding of
      - boards/gd/scripts/gd32_smart_test_selector.py  (module [Selector])
      - boards/gd/scripts/gd32_local_tester.py         (module [Tester])
    together with the properties their specification states.

    Modelling conventions.
      - A Python [str] is a [string]; test paths, board names and
        peripheral identifiers are ASCII, so [str.lower] maps A-Z to a-z
        and leaves every other character alone.
      - A Python [list] is a [list]; [lst.append(x)] is [lst ++ [x]] and
        [lst.extend(xs)] is [lst ++ xs] on an explicitly threaded
        accumulator, a [for] loop is a [fold_left] over the iterated list.
      - A Python [dict] keeps insertion order, which the generators
        observe, so it is an association list in declaration order with
        first-match lookup ([PyDict]).
      - A Python [set] of strings is a [gset string]. *)

From Stdlib Require Import ZArith QArith List Ascii String Lia Permutation.
From stdpp Require Import base decidable list strings gmap pretty sorting.

Local Close Scope Q_scope.
Local Open Scope nat_scope.

(** ** Python string primitives *)

Module PyStr.

(** [c.lower()] for one ASCII character. *)
Definition lower_char (c : ascii) : ascii :=
  let n := N_of_ascii c in
  if ((65 <=? n) && (n <=? 90))%N then ascii_of_N (n + 32) else c.

(** [s.lower()] *)
Fixpoint lower (s : string) : string :=
  match s with
  | EmptyString => EmptyString
  | String c s' => String (lower_char c) (lower s')
  end.

(** [s.startswith(p)] *)
Fixpoint startswith (p s : string) : bool :=
  match p, s with
  | EmptyString, _ => true
  | String _ _, EmptyString => false
  | String a p', String b s' => if Ascii.eqb a b then startswith p' s' else false
  end.

(** [sub in s] on strings: [sub] occurs as a contiguous substring. *)
Fixpoint contains (sub s : string) : bool :=
  startswith sub s ||
  match s with
  | EmptyString => false
  | String _ s' => contains sub s'
  end.

(** The declarative reading of [sub in s]. *)
Definition occurs (sub s : string) : Prop :=
  ∃ pre post, s = pre +:+ sub +:+ post.

(** [sep.join(parts)] *)
Fixpoint join (sep : string) (parts : list string) : string :=
  match parts with
  | [] => ""
  | [p] => p
  | p :: rest => p +:+ sep +:+ join sep rest
  end.

(** [s.split(sep)] for a one-character separator: always at least one
    field, empty fields kept. *)
Fixpoint split_go (sep : ascii) (cur : string) (s : string) : list string :=
  match s with
  | EmptyString => [String.rev cur]
  | String c s' =>
      if Ascii.eqb c sep then String.rev cur :: split_go sep "" s'
      else split_go sep (String c cur) s'
  end.
Definition split (sep : ascii) (s : string) : list string := split_go sep "" s.

(** Whitespace removed by [str.strip()] in the ASCII range. *)
Definition is_space (c : ascii) : bool :=
  let n := N_of_ascii c in
  (((9 <=? n) && (n <=? 13)) || ((28 <=? n) && (n <=? 32)))%N.

Fixpoint lstrip (s : string) : string :=
  match s with
  | EmptyString => EmptyString
  | String c s' => if is_space c then lstrip s' else s
  end.

(** [s.strip()] *)
Definition strip (s : string) : string :=
  String.rev (lstrip (String.rev (lstrip s))).

(** [s[-n:]] for [n > 0]: the last [n] characters, all of [s] when it
    is shorter. *)
Definition last_chars (n : nat) (s : string) : string :=
  let len := String.length s in
  String.substring (len - n) n s.

(** [c in s] for a single character. *)
Fixpoint has_char (c : ascii) (s : string) : bool :=
  match s with
  | EmptyString => false
  | String a s' => Ascii.eqb a c || has_char c s'
  end.

(** [lst[-n:]] for [n > 0]. *)
Definition last_items {A} (n : nat) (l : list A) : list A :=
  drop (length l - n) l.

(** [s[:n]]: the first [n] characters, all of [s] when it is shorter. *)
Definition first_chars (n : nat) (s : string) : string :=
  String.substring 0 n s.

(** [s.replace(old, new)] for single characters. *)
Fixpoint replace_char (old new : ascii) (s : string) : string :=
  match s with
  | EmptyString => EmptyString
  | String c s' =>
      String (if Ascii.eqb c old then new else c) (replace_char old new s')
  end.

(** Truthiness of a list. *)
Definition truthy {A} (l : list A) : bool :=
  match l with [] => false | _ :: _ => true end.

(** [sorted(names)] on strings. *)
Definition sorted (names : list string) : list string :=
  merge_sort String.le names.

End PyStr.

(** ** Insertion-ordered dictionaries *)

Module PyDict.

Definition t (V : Type) : Type := list (string * V).

(** [d.get(k)] *)
Fixpoint get {V} (k : string) (d : t V) : option V :=
  match d with
  | [] => None
  | (k', v) :: d' => if String.eqb k k' then Some v else get k d'
  end.

(** [list(d.keys())] *)
Definition keys {V} (d : t V) : list string := map fst d.

(** [d.items()] *)
Definition items {V} (d : t V) : list (string * V) := d.

(** [d[k] = v]: an existing key keeps its place, a new key goes last. *)
Fixpoint set {V} (k : string) (v : V) (d : t V) : t V :=
  match d with
  | [] => [(k, v)]
  | (k', v') :: d' =>
      if String.eqb k k' then (k', v) :: d' else (k', v') :: set k v d'
  end.

(** [k in d] *)
Definition mem {V} (k : string) (d : t V) : bool :=
  match get k d with Some _ => true | None => false end.

End PyDict.

(** ** JSON-compatible Python values, as handed to [json.dump] *)

#[warnings="-register-all"]
Inductive json : Type :=
| JNull
| JBool (b : bool)
| JInt (z : Z)
| JStr (s : string)
| JList (l : list json)
| JDict (d : list (string * json)).

(** ** gd32_smart_test_selector.py

    The configuration is taken as already parsed. The methods of
    [TestPlanGenerator] take the loader, the generator's only field, in
    place of [self]. *)

Module Selector.

Record BoardConfig : Type := mkBoardConfig {
  name : string;
  series : string;
  peripherals : list string;
  test_suites : PyDict.t (list string);
  arch : string
}.

Record TestPlan : Type := mkTestPlan {
  board : string;
  test_path : string;
  category : string;
  required_peripherals : list string
}.

(** The [boards] entry of a test group: the literal ['all'] or a list
    of board names. *)
Inductive BoardSelector : Type :=
| SelAll
| SelList (names : list string).

(** One value of [test_groups]: a YAML mapping whose keys
    [description], [tests] and [boards] may each be missing. *)
Record GroupConfig : Type := mkGroupConfig {
  description : option string;
  tests : option (list string);
  group_boards : option BoardSelector
}.

Record PeripheralMatrixLoader : Type := mkLoader {
  boards : PyDict.t BoardConfig;
  test_groups : PyDict.t GroupConfig
}.

Definition get_board_config (loader : PeripheralMatrixLoader)
    (board_name : string) : option BoardConfig :=
  PyDict.get board_name (boards loader).

Definition get_all_boards (loader : PeripheralMatrixLoader) : list string :=
  PyDict.keys (boards loader).

(** [x in lst] on a list of strings. *)
Definition py_in (x : string) (lst : list string) : bool :=
  existsb (String.eqb x) lst.

(** [TestPlanGenerator._infer_required_peripherals] *)
Definition _infer_required_peripherals (test_path : string) : list string :=
  let peripherals := [] in
  let test_lower := PyStr.lower test_path in
  let peripherals :=
    if PyStr.contains "i2c" test_lower
    then peripherals ++ ["i2c"] else peripherals in
  let peripherals :=
    if PyStr.contains "spi" test_lower
    then peripherals ++ ["spi"] else peripherals in
  let peripherals :=
    if PyStr.contains "uart" test_lower || PyStr.contains "console" test_lower
       || PyStr.contains "shell" test_lower
    then peripherals ++ ["uart"] else peripherals in
  let peripherals :=
    if PyStr.contains "gpio" test_lower || PyStr.contains "blinky" test_lower
    then peripherals ++ ["gpio"] else peripherals in
  let peripherals :=
    if PyStr.contains "can" test_lower
    then peripherals ++ ["can"] else peripherals in
  let peripherals :=
    if PyStr.contains "net" test_lower || PyStr.contains "ethernet" test_lower
    then peripherals ++ ["ethernet"] else peripherals in
  let peripherals :=
    if PyStr.contains "adc" test_lower
    then peripherals ++ ["adc"] else peripherals in
  let peripherals :=
    if PyStr.contains "pwm" test_lower
    then peripherals ++ ["pwm"] else peripherals in
  peripherals.

(** The rule table of the specification: trigger substrings and the
    peripheral they stand for, in check order. *)
Definition rule_table : list (list string * string) :=
  [ (["i2c"], "i2c");
    (["spi"], "spi");
    (["uart"; "console"; "shell"], "uart");
    (["gpio"; "blinky"], "gpio");
    (["can"], "can");
    (["net"; "ethernet"], "ethernet");
    (["adc"], "adc");
    (["pwm"], "pwm") ].

Definition rule_fires (path_lower : string) (rule : list string * string) : bool :=
  existsb (λ pat, PyStr.contains pat path_lower) rule.1.

(** The table applied to the lower-cased path. *)
Definition infer_by_table (test_path : string) : list string :=
  map snd (List.filter (rule_fires (PyStr.lower test_path)) rule_table).

(** [TestPlanGenerator.generate_for_board] *)
Definition generate_for_board (loader : PeripheralMatrixLoader)
    (board_name : string) : list TestPlan :=
  match get_board_config loader board_name with
  | None => []
  | Some board_config =>
      let test_plans := [] in
      fold_left
        (λ test_plans '(category, tests),
           fold_left
             (λ test_plans test_path,
                let required_peripherals := _infer_required_peripherals test_path in
                if forallb (λ p, py_in p (peripherals board_config))
                     required_peripherals
                then test_plans ++
                       [ {| board := board_name;
                            test_path := test_path;
                            category := category;
                            required_peripherals := required_peripherals |} ]
                else test_plans)
             tests test_plans)
        (PyDict.items (test_suites board_config)) test_plans
  end.

(** Truthiness of the optional [board_filter] argument: [None] and the
    empty list are both false. *)
Definition filter_truthy (board_filter : option (list string)) : bool :=
  match board_filter with
  | None | Some [] => false
  | Some (_ :: _) => true
  end.

(** [TestPlanGenerator.generate_for_all_boards] *)
Definition generate_for_all_boards (loader : PeripheralMatrixLoader)
    (board_filter : option (list string)) : list TestPlan :=
  let all_plans := [] in
  let boards :=
    if filter_truthy board_filter
    then default [] board_filter
    else get_all_boards loader in
  fold_left
    (λ all_plans board_name,
       let plans := generate_for_board loader board_name in
       all_plans ++ plans)
    boards all_plans.

(** A key of the mapping is present. *)
Definition present {A} (field : option A) : bool :=
  match field with Some _ => true | None => false end.

(** Truthiness of a group mapping: a [dict] is false exactly when it
    has no key. *)
Definition group_truthy (g : GroupConfig) : bool :=
  present (description g) || present (tests g) || present (group_boards g).

(** [TestPlanGenerator.generate_by_group] *)
Definition generate_by_group (loader : PeripheralMatrixLoader)
    (group_name : string) : list TestPlan :=
  match PyDict.get group_name (test_groups loader) with
  | None => []
  | Some group_config =>
      if negb (group_truthy group_config) then []
      else
        let tests := default [] (tests group_config) in
        let boards := default (SelList []) (group_boards group_config) in
        let boards :=
          match boards with
          | SelAll => get_all_boards loader
          | SelList names => names
          end in
        let test_plans := [] in
        fold_left
          (λ test_plans board,
             fold_left
               (λ test_plans test_path,
                  let required_peripherals :=
                    _infer_required_peripherals test_path in
                  test_plans ++
                    [ {| board := board;
                         test_path := test_path;
                         category := group_name;
                         required_peripherals := required_peripherals |} ])
               tests test_plans)
          boards test_plans
  end.

(** The [test_plans] array built by [export_to_json]. *)
Definition plan_record (plan : TestPlan) : json :=
  JDict [ ("board", JStr (board plan));
          ("test_path", JStr (test_path plan));
          ("category", JStr (category plan));
          ("required_peripherals", JList (map JStr (required_peripherals plan))) ].

(** [len(set(xs))] *)
Definition len_set (xs : list string) : nat :=
  size (list_to_set xs : gset string).

(** [TestPlanGenerator.export_to_json]: the document [data] that is
    handed to [json.dump]. *)
Definition export_to_json (test_plans : list TestPlan) : json :=
  JDict
    [ ("test_plans", JList (map plan_record test_plans));
      ("summary",
       JDict [ ("total_tests", JInt (Z.of_nat (length test_plans)));
               ("boards", JInt (Z.of_nat (len_set (map board test_plans))));
               ("unique_tests",
                JInt (Z.of_nat (len_set (map test_path test_plans)))) ]) ].

(** [TestPlanGenerator.print_summary]: the three figures it prints,
    [len(test_plans)], [len(boards_set)] and [len(tests_set)]. *)
Definition print_summary_counts (test_plans : list TestPlan) : nat * nat * nat :=
  let boards_set : gset string := list_to_set (map board test_plans) in
  let tests_set : gset string := list_to_set (map test_path test_plans) in
  (length test_plans, size boards_set, size tests_set).

(** *** Reference notions used by the statements *)

(** A board supports a requirement list. *)
Definition supports (board_config : BoardConfig) (required : list string) : Prop :=
  ∀ p, p ∈ required → p ∈ peripherals board_config.

(** The declared (category, test path) pairs of a board, category
    outer and test path inner, both in declared order. *)
Definition declared_pairs (board_config : BoardConfig) : list (string * string) :=
  '(category, tests) ← PyDict.items (test_suites board_config);
  (λ test_path, (category, test_path)) <$> tests.

Definition entry_for (board_name : string) (pair : string * string) : TestPlan :=
  {| board := board_name;
     test_path := pair.2;
     category := pair.1;
     required_peripherals := _infer_required_peripherals pair.2 |}.

(** The invariant of a plan entry: it references a known board, and
    that board has every required peripheral. *)
Definition entry_ok (loader : PeripheralMatrixLoader) (e : TestPlan) : Prop :=
  ∃ board_config,
    get_board_config loader (board e) = Some board_config
    ∧ supports board_config (required_peripherals e).

Definition entry_okb (loader : PeripheralMatrixLoader) (e : TestPlan) : bool :=
  match get_board_config loader (board e) with
  | None => false
  | Some board_config =>
      forallb (λ p, py_in p (peripherals board_config)) (required_peripherals e)
  end.

(** The board list a selector stands for. *)
Definition resolve_boards (loader : PeripheralMatrixLoader)
    (sel : option BoardSelector) : list string :=
  match sel with
  | Some SelAll => get_all_boards loader
  | Some (SelList names) => names
  | None => []
  end.

(** [doc[key]] on an exported document. *)
Definition document_field (key : string) (doc : json) : option json :=
  match doc with
  | JDict d => PyDict.get key d
  | _ => None
  end.

(** Reading an exported document back. The scripts have no reader of
    their own; this one follows the export format, a record with the
    keys [board], [test_path], [category] and [required_peripherals]. *)
Definition read_str (j : json) : option string :=
  match j with JStr s => Some s | _ => None end.

Definition read_record (j : json) : option TestPlan :=
  match j with
  | JDict d =>
      b ← PyDict.get "board" d ≫= read_str;
      t ← PyDict.get "test_path" d ≫= read_str;
      c ← PyDict.get "category" d ≫= read_str;
      r ← PyDict.get "required_peripherals" d ≫=
            (λ v, match v with JList l => mapM read_str l | _ => None end);
      Some {| board := b; test_path := t; category := c;
              required_peripherals := r |}
  | _ => None
  end.

(** Reading the [test_plans] array of an exported document back. *)
Definition read_test_plans (doc : json) : option (list TestPlan) :=
  match document_field "test_plans" doc with
  | Some (JList records) => mapM read_record records
  | _ => None
  end.

(** The entry appended, or not, for one declared test path of a
    board: one pass through the inner loop body of
    [generate_for_board]. *)
Definition step_for (board_name : string) (board_config : BoardConfig)
    (category test_path : string) : list TestPlan :=
  if forallb (λ p, py_in p (peripherals board_config))
       (_infer_required_peripherals test_path)
  then [entry_for board_name (category, test_path)] else [].

(** *** The loader and the per-board distribution of [print_summary] *)

(** One value of the [boards] section as [yaml.safe_load] returns it:
    each of its keys may be missing. *)
Record BoardInfo : Type := mkBoardInfo {
  info_series : option string;
  info_peripherals : option (list string);
  info_test_suites : option (PyDict.t (list string));
  info_arch : option string
}.

(** The parsed configuration file, a mapping whose sections may be
    missing. The [ci_config] section is loaded and never read. *)
Record ConfigData : Type := mkConfigData {
  data_boards : option (PyDict.t BoardInfo);
  data_test_groups : option (PyDict.t GroupConfig)
}.

(** [PeripheralMatrixLoader.load_config]. The argument is the parsed
    content of the configuration file, [None] when the file does not
    exist; the result [None] stands for the [FileNotFoundError]. *)
Definition load_config (config_file : option ConfigData)
    : option PeripheralMatrixLoader :=
  match config_file with
  | None => None
  | Some data =>
      let boards_data := default [] (data_boards data) in
      let boards :=
        fold_left
          (λ boards '(board_name, board_info),
             PyDict.set board_name
               {| name := board_name;
                  series := default "unknown" (info_series board_info);
                  peripherals := default [] (info_peripherals board_info);
                  test_suites := default [] (info_test_suites board_info);
                  arch := default "arm" (info_arch board_info) |}
               boards)
          (PyDict.items boards_data) [] in
      Some {| boards := boards;
              test_groups := default [] (data_test_groups data) |}
  end.

(** [PeripheralMatrixLoader.get_boards_by_series] *)
Definition get_boards_by_series (loader : PeripheralMatrixLoader)
    (wanted : string) : list string :=
  '(name, board) ← PyDict.items (boards loader);
  if String.eqb (series board) wanted then [name] else [].

(** [PeripheralMatrixLoader.get_boards_with_peripheral] *)
Definition get_boards_with_peripheral (loader : PeripheralMatrixLoader)
    (peripheral : string) : list string :=
  '(name, board) ← PyDict.items (boards loader);
  if py_in peripheral (peripherals board) then [name] else [].

(** [TestPlanGenerator.print_summary]: the [board_stats] dictionary it
    builds, board name to the test paths planned for it. *)
Definition board_stats (test_plans : list TestPlan) : PyDict.t (list string) :=
  fold_left
    (λ board_stats plan,
       let board_stats :=
         if negb (PyDict.mem (board plan) board_stats)
         then PyDict.set (board plan) [] board_stats
         else board_stats in
       PyDict.set (board plan)
         (default [] (PyDict.get (board plan) board_stats) ++ [test_path plan])
         board_stats)
    test_plans [].

(** [sorted(d.items())] for a dictionary with string keys: the keys are
    distinct, so the items are ordered by key alone. *)
Definition sorted_items {V} (d : PyDict.t V) : list (string * V) :=
  merge_sort (λ x y, (x.1 ≤ y.1)%string) (PyDict.items d).

(** [TestPlanGenerator.print_summary]: the rows of the distribution it
    prints, one per board in sorted order, as (board, number of tests);
    the column formatting is left out. *)
Definition print_summary_distribution (test_plans : list TestPlan)
    : list (string * nat) :=
  (λ '(board, tests), (board, length tests)) <$> sorted_items (board_stats test_plans).

(** *** Reference notions for the loader and the distribution *)

(** The configuration built for one entry of the [boards] section. *)
Definition board_config_of (board_name : string) (board_info : BoardInfo)
    : BoardConfig :=
  {| name := board_name;
     series := default "unknown" (info_series board_info);
     peripherals := default [] (info_peripherals board_info);
     test_suites := default [] (info_test_suites board_info);
     arch := default "arm" (info_arch board_info) |}.

(** The test paths planned for one board, in plan order. *)
Definition paths_of (board_name : string) (test_plans : list TestPlan)
    : list string :=
  test_path <$> filter (λ plan, board plan = board_name) test_plans.

(** The distinct elements of a list in order of first occurrence. *)
Definition first_occurrences (xs : list string) : list string :=
  reverse (remove_dups (reverse xs)).

End Selector.

(** ** gd32_local_tester.py *)

Module Tester.

Definition MAX_LOG_LENGTH : nat := 1000.

(** The newline character and the one-character string ["\n"]. *)
Definition nl_char : ascii := ascii_of_nat 10.
Definition nl : string := String nl_char "".

(** A [pathlib.Path] is kept as its string form. *)
Record TestCase : Type := mkTestCase {
  name : string;
  path : string;
  tags : list string;
  platforms : list string;
  source_type : string
}.

Record BuildResult : Type := mkBuildResult {
  board : string;
  testcase : string;
  success : bool;
  message : string;
  duration : Q;
  build_dir : option string;
  log_output : string
}.

(** What [subprocess.run] does: it completes with an exit status and
    the combined output, raises [subprocess.TimeoutExpired], or raises
    another [Exception] whose [str(e)] is carried along. *)
Inductive RunOutcome : Type :=
| Completed (returncode : Z) (stdout : string)
| TimeoutExpired
| Raised (e : string).

(** The outside world of one build: the process started for a command
    line, and the two readings of [time.time()]. *)
Record World : Type := mkWorld {
  run : list string → RunOutcome;
  start_time : Q;
  end_time : Q
}.

(** [p.relative_to(base)] on normalised paths; [None] stands for the
    [ValueError] raised when [p] is not below [base]. *)
Definition relative_to (p base : string) : option string :=
  if String.eqb p base then Some "."
  else if PyStr.startswith (base +:+ "/") p
       then Some (String.substring (S (String.length base))
                    (String.length p - S (String.length base)) p)
       else None.

(** The command line assembled by [west_build]. *)
Definition build_command (board : string) (testcase : TestCase)
    (pristine build_dir zephyr_base : string) : list string :=
  let cmd := ["west"; "build"] in
  let cmd :=
    if negb (String.eqb pristine "never") then cmd ++ ["-p"; pristine] else cmd in
  let board_str := PyStr.strip board in
  let build_dir_str := PyStr.strip build_dir in
  let test_path_str :=
    match relative_to (path testcase) zephyr_base with
    | Some test_path_relative => test_path_relative
    | None => path testcase
    end in
  let test_path_str := PyStr.strip test_path_str in
  cmd ++ ["-b"; board_str; "-d"; build_dir_str; test_path_str].

(** [output[-MAX_LOG_LENGTH:] if len(output) > MAX_LOG_LENGTH else output] *)
Definition truncate_log (output : string) : string :=
  if MAX_LOG_LENGTH <? String.length output
  then PyStr.last_chars MAX_LOG_LENGTH output
  else output.

(** A line carries an error marker. *)
Definition is_error_line (line : string) : bool :=
  PyStr.contains "error:" (PyStr.lower line)
  || PyStr.contains "fatal error:" (PyStr.lower line).

(** The lines kept for the message of a failed build. *)
Definition error_excerpt (output : string) : list string :=
  let error_lines := List.filter is_error_line (PyStr.split nl_char output) in
  match error_lines with
  | _ :: _ => PyStr.last_items 5 error_lines
  | [] =>
      let output_lines := PyStr.split nl_char (PyStr.strip output) in
      PyStr.last_items 10 output_lines
  end.

(** The body of [west_build] after [subprocess.run]: the branches on
    the exit status and the two [except] clauses. *)
Definition build_result (board : string) (testcase : TestCase)
    (build_dir : string) (timeout : Z) (world : World)
    (outcome : RunOutcome) : BuildResult :=
  match outcome with
  | Completed returncode output =>
      let duration := (end_time world - start_time world)%Q in
      if (returncode =? 0)%Z then
        {| board := board;
           testcase := name testcase;
           success := true;
           message := "Build successful";
           duration := duration;
           build_dir := Some build_dir;
           log_output := truncate_log output |}
      else
        let error_msg := PyStr.join nl (error_excerpt output) in
        {| board := board;
           testcase := name testcase;
           success := false;
           message := "Build failed:" +:+ nl +:+ error_msg;
           duration := duration;
           build_dir := Some build_dir;
           log_output := truncate_log output |}
  | TimeoutExpired =>
      let duration := inject_Z timeout in
      {| board := board;
         testcase := name testcase;
         success := false;
         message := "Build timeout after " +:+ pretty timeout +:+ "s";
         duration := duration;
         build_dir := None;
         log_output := "Build timed out" |}
  | Raised e =>
      let duration := (end_time world - start_time world)%Q in
      {| board := board;
         testcase := name testcase;
         success := false;
         message := "Build error: " +:+ e;
         duration := duration;
         build_dir := None;
         log_output := e |}
  end.

(** [west_build] *)
Definition west_build (board : string) (testcase : TestCase)
    (pristine build_dir zephyr_base : string) (timeout : Z)
    (world : World) : BuildResult :=
  let cmd := build_command board testcase pristine build_dir zephyr_base in
  build_result board testcase build_dir timeout world (run world cmd).

(** *** Reference notions used by the statements *)

(** The three failure classes. *)
Definition is_failure (outcome : RunOutcome) : bool :=
  match outcome with
  | Completed returncode _ => negb (returncode =? 0)%Z
  | TimeoutExpired | Raised _ => true
  end.

(** The message of a build that exited with a non-zero status and
    wrote [output]. *)
Definition failure_message (output : string) : string :=
  "Build failed:" +:+ nl +:+ PyStr.join nl (error_excerpt output).

(** Number of lines of a text. *)
Definition line_count (text : string) : nat :=
  length (PyStr.split nl_char text).

(** *** Board discovery *)

Definition GD32_BOARDS_DIR : string := "boards/gd".
Definition BUILD_DIR_PREFIX : string := "gd32_build_".

(** One entry of [gd_boards_dir.iterdir()] with what the file system
    answers about it: whether it is a directory, whether it holds
    [board.yml], and the matches of the two globs. *)
Record BoardDir : Type := mkBoardDir {
  dir_name : string;
  is_dir : bool;
  has_board_yml : bool;
  dts_files : list string;
  defconfig_files : list string
}.

(** [discover_gd32_boards]; the argument is the listing of
    [zephyr_base / GD32_BOARDS_DIR], [None] when it does not exist. *)
Definition discover_gd32_boards (gd_boards_dir : option (list BoardDir))
    : list string :=
  let boards := [] in
  match gd_boards_dir with
  | None => boards
  | Some entries =>
      let boards :=
        fold_left
          (λ boards board_dir,
             if is_dir board_dir
                && negb (Selector.py_in (dir_name board_dir)
                           ["scripts"; "__pycache__"])
                && (has_board_yml board_dir
                    || PyStr.truthy (dts_files board_dir)
                    || PyStr.truthy (defconfig_files board_dir))
             then boards ++ [dir_name board_dir]
             else boards)
          entries boards in
      PyStr.sorted boards
  end.

(** *** Test and sample discovery *)

(** One value of the [tests] mapping of a [testcase.yaml]. *)
Record TestCfg : Type := mkTestCfg {
  cfg_path : option string;
  cfg_tags : option (list string);
  cfg_platform_allow : option (list string);
  cfg_platforms : option (list string)
}.

(** The [common] mapping of a [sample.yaml]. *)
Record CommonCfg : Type := mkCommonCfg {
  common_tags : option (list string);
  common_platform_allow : option (list string)
}.

(** A parsed YAML document with the keys the runner reads. *)
Record YamlData : Type := mkYamlData {
  yaml_tests : option (PyDict.t TestCfg);
  yaml_name : option string;
  yaml_common : option CommonCfg
}.

(** What opening and parsing a file gives: an exception, or the
    document, [None] for an empty one. *)
Inductive YamlLoad : Type :=
| LoadError
| Loaded (document : option YamlData).

(** A YAML file: [yaml_path.parent] in string form,
    [yaml_path.parent.name], and the outcome of loading it. *)
Record YamlFile : Type := mkYamlFile {
  parent : string;
  parent_name : string;
  load : YamlLoad
}.

Definition empty_document : YamlData :=
  {| yaml_tests := None; yaml_name := None; yaml_common := None |}.

Definition empty_common : CommonCfg :=
  {| common_tags := None; common_platform_allow := None |}.

(** The parsed command line, with the options the modelled code reads. *)
Record Args : Type := mkArgs {
  args_platforms : option (list string);
  args_tags : option (list string);
  args_pristine : string;
  args_jobs : Z;
  args_timeout : Z
}.

(** The [report] dictionary of [generate_json_report]; its keys are
    fixed, so it is kept as records. *)
Record ReportSummary : Type := mkReportSummary {
  total : nat;
  passed : nat;
  failed : nat;
  total_duration : Q
}.

Record ReportRow : Type := mkReportRow {
  row_board : string;
  row_testcase : string;
  row_success : bool;
  row_message : string;
  row_duration : Q
}.

Record Report : Type := mkReport {
  timestamp : string;
  summary : ReportSummary;
  results : list ReportRow
}.

(** The double quote character as a string. *)
Definition dq : string := String (ascii_of_nat 34) EmptyString.

Section Library.

(** [parent / child] of [pathlib], [p.resolve()], and the fixed-point
    formatting [f"{x:.Nf}"] of a float. *)
Variable path_child : string → string → string.
Variable path_resolve : string → string.
Variable format_fixed : nat → Q → string.

(** [parse_yaml_file] *)
Definition parse_yaml_file (yaml_path : YamlFile) (source_type : string)
    : list TestCase :=
  let cases := [] in
  match load yaml_path with
  | LoadError => cases
  | Loaded document =>
      let data := default empty_document document in
      if String.eqb source_type "testcase" then
        let tests := default [] (yaml_tests data) in
        fold_left
          (λ cases '(name, cfg),
             let test_path :=
               match cfg_path cfg with
               | Some p => path_resolve (path_child (parent yaml_path) p)
               | None => parent yaml_path
               end in
             let tags := default [] (cfg_tags cfg) in
             let platforms :=
               match cfg_platform_allow cfg with
               | Some allowed => allowed
               | None => default [] (cfg_platforms cfg)
               end in
             cases ++
               [ {| name := name;
                    path := test_path;
                    tags := tags;
                    platforms := if PyStr.truthy platforms then platforms else [];
                    source_type := "testcase" |} ])
          (PyDict.items tests) cases
      else if String.eqb source_type "sample" then
        let sample_name := default (parent_name yaml_path) (yaml_name data) in
        let common := default empty_common (yaml_common data) in
        let tags := default [] (common_tags common) in
        let test_path := parent yaml_path in
        let platforms := default [] (common_platform_allow common) in
        cases ++
          [ {| name := sample_name;
               path := test_path;
               tags := tags;
               platforms := if PyStr.truthy platforms then platforms else [];
               source_type := "sample" |} ]
      else cases
  end.

(** [discover_tests_and_samples]; the arguments are the files found by
    [root.rglob('testcase.yaml')] and [root.rglob('sample.yaml')]. *)
Definition discover_tests_and_samples (testcase_files sample_files : list YamlFile)
    : list TestCase :=
  let cases := [] in
  let cases :=
    fold_left (λ cases yaml_file, cases ++ parse_yaml_file yaml_file "testcase")
      testcase_files cases in
  let cases :=
    fold_left (λ cases yaml_file, cases ++ parse_yaml_file yaml_file "sample")
      sample_files cases in
  cases.

(** [filter_boards_for_testcase] *)
Definition filter_boards_for_testcase (testcase : TestCase)
    (all_gd32_boards : list string) (platform_filter : option (list string))
    : list string :=
  let boards :=
    if PyStr.truthy (platforms testcase)
    then List.filter (λ b, Selector.py_in b all_gd32_boards) (platforms testcase)
    else all_gd32_boards in
  let boards :=
    if Selector.filter_truthy platform_filter
    then List.filter (λ b, Selector.py_in b (default [] platform_filter)) boards
    else boards in
  boards.

(** [build_worker] *)
Definition build_worker (board : string) (testcase : TestCase) (args : Args)
    (work_dir zephyr_base : string) (world : World) : BuildResult :=
  let safe_name :=
    PyStr.replace_char "." "_" (PyStr.replace_char "/" "_" (name testcase)) in
  let build_dir :=
    path_child work_dir (BUILD_DIR_PREFIX +:+ board +:+ "_" +:+ safe_name) in
  let result :=
    west_build board testcase (args_pristine args) build_dir zephyr_base
      (args_timeout args) world in
  result.

(** [sum(1 for r in results if cond(r))] *)
Definition count_results (cond : BuildResult → bool) (results : list BuildResult)
    : nat :=
  fold_left (λ acc r, if cond r then acc + 1 else acc) results 0.

(** [sum(r.duration for r in results)] *)
Definition sum_durations (results : list BuildResult) : Q :=
  fold_left (λ acc r, (acc + duration r)%Q) results 0%Q.

(** [generate_json_report]: the [report] it writes and returns; [now]
    is [datetime.now().isoformat()]. *)
Definition generate_json_report (now : string) (results : list BuildResult)
    : Report :=
  {| timestamp := now;
     summary :=
       {| total := length results;
          passed := count_results (λ r, success r) results;
          failed := count_results (λ r, negb (success r)) results;
          total_duration := sum_durations results |};
     results :=
       map (λ r, {| row_board := board r;
                    row_testcase := testcase r;
                    row_success := success r;
                    row_message := message r;
                    row_duration := duration r |})
         results |}.

(** [generate_junit_xml]: the list [xml_lines]. *)
Definition junit_xml_lines (results : list BuildResult) : list string :=
  let total := length results in
  let failures := count_results (λ r, negb (success r)) results in
  let total_time := sum_durations results in
  let xml_lines :=
    [ "<?xml version=" +:+ dq +:+ "1.0" +:+ dq +:+ " encoding=" +:+ dq
        +:+ "UTF-8" +:+ dq +:+ "?>";
      "<testsuites tests=" +:+ dq +:+ pretty total +:+ dq
        +:+ " failures=" +:+ dq +:+ pretty failures +:+ dq
        +:+ " time=" +:+ dq +:+ format_fixed 2 total_time +:+ dq +:+ ">";
      "  <testsuite name=" +:+ dq +:+ "GD32 Build Tests" +:+ dq +:+ ">" ] in
  let xml_lines :=
    fold_left
      (λ xml_lines result,
         let test_name := board result +:+ "." +:+ testcase result in
         let xml_lines :=
           xml_lines ++
             [ "    <testcase name=" +:+ dq +:+ test_name +:+ dq
                 +:+ " time=" +:+ dq +:+ format_fixed 2 (duration result)
                 +:+ dq +:+ ">" ] in
         let xml_lines :=
           if negb (success result) then
             let xml_lines :=
               xml_lines ++
                 [ "      <failure message=" +:+ dq
                     +:+ PyStr.first_chars 200 (message result) +:+ dq +:+ ">" ] in
             let xml_lines :=
               xml_lines ++
                 [ "        " +:+ PyStr.first_chars 500 (log_output result) ] in
             xml_lines ++ [ "      </failure>" ]
           else xml_lines in
         xml_lines ++ [ "    </testcase>" ])
      results xml_lines in
  let xml_lines := xml_lines ++ [ "  </testsuite>" ] in
  let xml_lines := xml_lines ++ [ "</testsuites>" ] in
  xml_lines.


(** [main]: the tag filter. [set(args.tags).intersection(tc.tags)] is
    true when the two tag lists share a tag. *)
Definition shares_tag (wanted tc_tags : list string) : bool :=
  bool_decide ((list_to_set wanted : gset string) ∩ list_to_set tc_tags ≠ ∅).

Definition tag_filter (args : Args) (testcases : list TestCase) : list TestCase :=
  if Selector.filter_truthy (args_tags args)
  then List.filter (λ tc, shares_tag (default [] (args_tags args)) (tags tc)) testcases
  else testcases.

(** [main]: the build matrix. *)
Definition build_matrix (args : Args) (gd32_boards : list string)
    (testcases : list TestCase) : list (string * TestCase) :=
  let build_tasks := [] in
  fold_left
    (λ build_tasks tc,
       let boards := filter_boards_for_testcase tc gd32_boards (args_platforms args) in
       fold_left (λ build_tasks board, build_tasks ++ [(board, tc)])
         boards build_tasks)
    testcases build_tasks.

(** [main]: the exit code computed from the results. *)
Definition exit_code (results : list BuildResult) : Z :=
  let failed_count := count_results (λ r, negb (success r)) results in
  if failed_count =? 0 then 0%Z else 1%Z.

(** [main] from the discovered test cases to the exit code, for
    sequential builds ([args.jobs == 1]), given the discovered boards;
    the build started as number [i] runs in the world [world_at i]. The
    result is the exit code and the list [results]. *)
Definition main_sequential (args : Args) (gd32_boards : list string)
    (testcases : list TestCase) (work_dir zephyr_base : string)
    (world_at : nat → World) : Z * list BuildResult :=
  if negb (PyStr.truthy testcases) then (1%Z, [])
  else
  let testcases := tag_filter args testcases in
  if negb (PyStr.truthy testcases) then (0%Z, [])
  else
    let build_tasks := build_matrix args gd32_boards testcases in
    if negb (PyStr.truthy build_tasks) then (0%Z, [])
    else
      let results := [] in
      let results :=
        fold_left
          (λ results '(board, tc),
             let result :=
               build_worker board tc args work_dir zephyr_base
                 (world_at (length results)) in
             results ++ [result])
          build_tasks results in
      (exit_code results, results).

End Library.

(** *** Reference notions for the runner *)

(** A directory entry that [discover_gd32_boards] takes for a board. *)
Definition is_board_dir (board_dir : BoardDir) : bool :=
  is_dir board_dir
  && negb (Selector.py_in (dir_name board_dir) ["scripts"; "__pycache__"])
  && (has_board_yml board_dir
      || PyStr.truthy (dts_files board_dir)
      || PyStr.truthy (defconfig_files board_dir)).


(** The test case [parse_yaml_file] builds for one entry of [tests]. *)
Definition testcase_of (path_child : string → string → string)
    (path_resolve : string → string) (yaml_path : YamlFile)
    (item : string * TestCfg) : TestCase :=
  {| name := item.1;
     path := match cfg_path item.2 with
             | Some p => path_resolve (path_child (parent yaml_path) p)
             | None => parent yaml_path
             end;
     tags := default [] (cfg_tags item.2);
     platforms := match cfg_platform_allow item.2 with
                  | Some allowed => allowed
                  | None => default [] (cfg_platforms item.2)
                  end;
     source_type := "testcase" |}.

(** The test case [parse_yaml_file] builds for a [sample.yaml]. *)
Definition sample_of (yaml_path : YamlFile) (document : option YamlData)
    : TestCase :=
  let data := default empty_document document in
  let common := default empty_common (yaml_common data) in
  {| name := default (parent_name yaml_path) (yaml_name data);
     path := parent yaml_path;
     tags := default [] (common_tags common);
     platforms := default [] (common_platform_allow common);
     source_type := "sample" |}.



End Tester.

(** ** Concrete configurations used to exercise the definitions *)

Module Examples.
Import Selector.

Definition board_start : BoardConfig :=
  {| name := "gd32f407v_start";
     series := "gd32f4xx";
     peripherals := ["gpio"; "uart"];
     test_suites :=
       [ ("basic", ["samples/basic/blinky"]);
         ("drivers", ["tests/drivers/i2c"; "samples/hello_world"]) ];
     arch := "arm" |}.

Definition board_eval : BoardConfig :=
  {| name := "gd32e507z_eval";
     series := "gd32e50x";
     peripherals := ["gpio"; "uart"; "i2c"; "spi"];
     test_suites :=
       [ ("basic", ["samples/basic/blinky"]);
         ("drivers", ["tests/drivers/i2c"]) ];
     arch := "arm" |}.

(** The boards are declared with [gd32f407v_start] first, which is
    not the lexicographic order of the two names. *)
Definition loader_ex : PeripheralMatrixLoader :=
  {| boards :=
       [ ("gd32f407v_start", board_start); ("gd32e507z_eval", board_eval) ];
     test_groups :=
       [ ("i2c_drivers",
          {| description := Some "I2C driver tests";
             tests := Some ["tests/drivers/i2c"];
             group_boards := Some (SelList ["gd32f407v_start"]) |});
         ("essential",
          {| description := Some "Smoke tests";
             tests := Some ["samples/hello_world"; "samples/basic/blinky"];
             group_boards := Some SelAll |}) ] |}.

(** The single-board configuration of the specification's example. *)
Definition loader_blinky : PeripheralMatrixLoader :=
  {| boards :=
       [ ("gd32f407v_start",
          {| name := "gd32f407v_start";
             series := "gd32f4xx";
             peripherals := ["gpio"; "uart"];
             test_suites := [ ("basic", ["samples/basic/blinky"]) ];
             arch := "arm" |}) ];
     test_groups := [] |}.

(** The same board with an I2C driver test as its only suite. *)
Definition loader_i2c : PeripheralMatrixLoader :=
  {| boards :=
       [ ("gd32f407v_start",
          {| name := "gd32f407v_start";
             series := "gd32f4xx";
             peripherals := ["gpio"; "uart"];
             test_suites := [ ("basic", ["tests/drivers/i2c"]) ];
             arch := "arm" |}) ];
     test_groups := [] |}.

(** Entries for boards A, A, B and test paths t1, t2, t1. *)
Definition plan_aab : list TestPlan :=
  [ {| board := "A"; test_path := "t1"; category := "basic";
       required_peripherals := [] |};
    {| board := "A"; test_path := "t2"; category := "basic";
       required_peripherals := ["gpio"] |};
    {| board := "B"; test_path := "t1"; category := "basic";
       required_peripherals := [] |} ].

Definition blinky_case : Tester.TestCase :=
  {| Tester.name := "sample.basic.blinky";
     Tester.path := "/zephyr/samples/basic/blinky";
     Tester.tags := ["LED"; "gpio"];
     Tester.platforms := [];
     Tester.source_type := "sample" |}.

(** A world in which every command ends the same way. *)
Definition world_of (outcome : Tester.RunOutcome) : Tester.World :=
  {| Tester.run := λ _, outcome;
     Tester.start_time := 0%Q;
     Tester.end_time := 12%Q |}.

Definition timeout_result : Tester.BuildResult :=
  Tester.west_build "gd32f407v_start" blinky_case "auto" "/tmp/build"
    "/zephyr" 600 (world_of Tester.TimeoutExpired).

(** An exception text of twelve lines. *)
Definition long_exception_text : string :=
  PyStr.join Tester.nl (replicate 12 "OSError: cannot start west").

Definition raised_result : Tester.BuildResult :=
  Tester.west_build "gd32f407v_start" blinky_case "auto" "/tmp/build"
    "/zephyr" 600 (world_of (Tester.Raised long_exception_text)).

(** Compiler output with two error-marker lines. *)
Definition failing_output : string :=
  PyStr.join Tester.nl
    [ "-- west build: generating a build system";
      "main.c:3:10: fatal error: missing.h: No such file";
      "compilation terminated.";
      "FATAL ERROR: command exited with status 1: cmake" ].

(** A parsed configuration file with two boards, the second without
    any key. *)
Definition config_ex : ConfigData :=
  {| data_boards :=
       Some [ ("gd32f407v_start",
               {| info_series := Some "gd32f4xx";
                  info_peripherals := Some ["gpio"; "uart"];
                  info_test_suites := Some [ ("basic", ["samples/basic/blinky"]) ];
                  info_arch := None |});
              ("gd32vf103v_eval",
               {| info_series := None; info_peripherals := None;
                  info_test_suites := None; info_arch := None |}) ];
     data_test_groups := None |}.

(** A sample whose name has neither a slash nor a dot. *)
Definition hello_case : Tester.TestCase :=
  {| Tester.name := "hello_world";
     Tester.path := "/zephyr/samples/hello_world";
     Tester.tags := ["introduction"];
     Tester.platforms := [];
     Tester.source_type := "sample" |}.

(** A test case restricted to two platforms, one of them no GD32 board. *)
Definition i2c_case : Tester.TestCase :=
  {| Tester.name := "drivers.i2c.api";
     Tester.path := "/zephyr/tests/drivers/i2c/i2c_api";
     Tester.tags := ["drivers"; "i2c"];
     Tester.platforms := ["gd32e507z_eval"; "nrf52840dk"];
     Tester.source_type := "testcase" |}.

Definition gd32_boards_ex : list string :=
  ["gd32e507z_eval"; "gd32f407v_start"; "gd32vf103v_eval"].

Definition args_ex : Tester.Args :=
  {| Tester.args_platforms := None;
     Tester.args_tags := Some ["gpio"];
     Tester.args_pristine := "auto";
     Tester.args_jobs := 1;
     Tester.args_timeout := 600 |}.

(** A [testcase.yaml] whose only test has an empty [platform_allow]
    next to a [platforms] list. *)
Definition yaml_ex : Tester.YamlFile :=
  {| Tester.parent := "/zephyr/tests/kernel/common";
     Tester.parent_name := "common";
     Tester.load :=
       Tester.Loaded
         (Some {| Tester.yaml_tests :=
                    Some [ ("kernel.common",
                            {| Tester.cfg_path := None;
                               Tester.cfg_tags := Some ["kernel"];
                               Tester.cfg_platform_allow := Some [];
                               Tester.cfg_platforms := Some ["gd32f407v_start"] |}) ];
                  Tester.yaml_name := None;
                  Tester.yaml_common := None |}) |}.

(** A listing of [boards/gd]. *)
Definition listing_ex : list Tester.BoardDir :=
  [ {| Tester.dir_name := "scripts"; Tester.is_dir := true;
       Tester.has_board_yml := false; Tester.dts_files := [];
       Tester.defconfig_files := [] |};
    {| Tester.dir_name := "gd32f407v_start"; Tester.is_dir := true;
       Tester.has_board_yml := true; Tester.dts_files := ["gd32f407v_start.dts"];
       Tester.defconfig_files := ["gd32f407v_start_defconfig"] |};
    {| Tester.dir_name := "gd32e507z_eval"; Tester.is_dir := true;
       Tester.has_board_yml := false; Tester.dts_files := ["gd32e507z_eval.dts"];
       Tester.defconfig_files := [] |};
    {| Tester.dir_name := "index.rst"; Tester.is_dir := false;
       Tester.has_board_yml := false; Tester.dts_files := [];
       Tester.defconfig_files := [] |} ].

End Examples.

(** * Properties *)

(** ** Substring search *)

Module PyStrFacts.
Import PyStr.

Lemma app_cons a s t : String a s +:+ t = String a (s +:+ t).
Proof. reflexivity. Qed.

Lemma startswith_prefix p s :
  startswith p s = true ↔ ∃ post, s = p +:+ post.
Proof.
  revert s. induction p as [|a p IH]; intros s.
  - split; [intros _; by exists s | done].
  - destruct s as [|b s]; simpl.
    + split; [done | intros [post H]; discriminate H].
    + destruct (Ascii.eqb_spec a b) as [->|Hne].
      * rewrite IH. split; intros [post H]; exists post.
        -- by rewrite app_cons, H.
        -- rewrite app_cons in H. by injection H.
      * split; [done | intros [post H]].
        rewrite app_cons in H. injection H as -> _. done.
Qed.

Lemma contains_occurs sub s : contains sub s = true ↔ occurs sub s.
Proof.
  induction s as [|c s IH].
  - simpl. rewrite orb_false_r, startswith_prefix. split.
    + intros [post H]. by exists "", post.
    + intros [[|a pre] [post H]]; [by exists post | discriminate H].
  - simpl. rewrite orb_true_iff, IH, startswith_prefix. split.
    + intros [[post H] | (pre & post & H)].
      * by exists "", post.
      * exists (String c pre), post. by rewrite app_cons, H.
    + intros ([|a pre] & post & H).
      * left. by exists post.
      * right. rewrite app_cons in H. injection H as _ ->. by exists pre, post.
Qed.

Lemma contains_false_not_occurs sub s : contains sub s = false ↔ ¬ occurs sub s.
Proof. rewrite <- contains_occurs. by destruct (contains sub s). Qed.
End PyStrFacts.

(** ** Peripheral inference *)

Module InferFacts.
Import Selector PyStrFacts.

Lemma infer_eq_table test_path :
  _infer_required_peripherals test_path = infer_by_table test_path.
Proof.
  unfold _infer_required_peripherals, infer_by_table, rule_table, rule_fires.
  generalize (PyStr.lower test_path) as low. intros low.
  cbn [List.filter map existsb fst snd].
  generalize (PyStr.contains "i2c" low) (PyStr.contains "spi" low)
    (PyStr.contains "uart" low) (PyStr.contains "console" low)
    (PyStr.contains "shell" low) (PyStr.contains "gpio" low)
    (PyStr.contains "blinky" low) (PyStr.contains "can" low)
    (PyStr.contains "net" low) (PyStr.contains "ethernet" low)
    (PyStr.contains "adc" low) (PyStr.contains "pwm" low).
  intros b1 b2 b3 b4 b5 b6 b7 b8 b9 b10 b11 b12.
  rewrite !orb_false_r, <- !orb_assoc.
  generalize (b3 || (b4 || b5)) (b6 || b7) (b9 || b10).
  intros c3 c4 c6. clear.
  destruct b1, b2, c3, c4, b8, c6, b11, b12; reflexivity.
Qed.

Lemma NoDup_map_filter {A B} (g : A → B) (f : A → bool) (l : list A) :
  NoDup (map g l) → NoDup (map g (List.filter f l)).
Proof.
  induction l as [|a l IH]; simpl; [done|].
  rewrite NoDup_cons. intros [Hnotin Hnd].
  destruct (f a); simpl; [|by apply IH].
  apply NoDup_cons. split; [|by apply IH].
  rewrite list_elem_of_In, in_map_iff. intros (x & Hx & Hin).
  apply Hnotin. rewrite list_elem_of_In, in_map_iff.
  exists x. split; [done|]. by apply filter_In in Hin as [? _].
Qed.

Lemma sublist_map_filter {A B} (g : A → B) (f : A → bool) (l : list A) :
  sublist (map g (List.filter f l)) (map g l).
Proof.
  induction l as [|a l IH]; simpl; [constructor|].
  destruct (f a); simpl; by constructor.
Qed.

Lemma rule_fires_occurs path_lower rule :
  rule_fires path_lower rule = true
  ↔ ∃ pat, pat ∈ rule.1 ∧ PyStr.occurs pat path_lower.
Proof.
  unfold rule_fires. rewrite existsb_exists.
  split; intros (pat & Hin & Hocc); exists pat.
  - by rewrite list_elem_of_In, <- contains_occurs.
  - by rewrite <- list_elem_of_In, contains_occurs.
Qed.

Lemma elem_of_infer_by_table test_path p :
  p ∈ infer_by_table test_path
  ↔ ∃ rule, rule ∈ rule_table ∧ rule.2 = p
      ∧ ∃ pat, pat ∈ rule.1 ∧ PyStr.occurs pat (PyStr.lower test_path).
Proof.
  unfold infer_by_table. rewrite list_elem_of_In, in_map_iff.
  split.
  - intros (rule & Hp & Hin). apply filter_In in Hin as [Hin Hfire].
    exists rule. rewrite list_elem_of_In. by rewrite <- rule_fires_occurs.
  - intros (rule & Hin & Hp & Hfire). exists rule. split; [done|].
    apply filter_In. split; [by apply list_elem_of_In | by apply rule_fires_occurs].
Qed.

(** C2. [_infer_required_peripherals] returns exactly the peripherals
    of the eight-rule table applied to the lower-cased path: a
    peripheral is in the result if and only if one of its trigger
    substrings occurs in the lower-cased path, the result follows the
    check order i2c, spi, uart, gpio, can, ethernet, adc, pwm, it has
    no duplicate, and it is empty when no trigger substring occurs. *)
Theorem infer_required_peripherals_table (test_path : string) :
  let result := _infer_required_peripherals test_path in
  result = infer_by_table test_path
  ∧ (∀ p, p ∈ result ↔
       ∃ rule, rule ∈ rule_table ∧ rule.2 = p
         ∧ ∃ pat, pat ∈ rule.1 ∧ PyStr.occurs pat (PyStr.lower test_path))
  ∧ sublist result ["i2c"; "spi"; "uart"; "gpio"; "can"; "ethernet"; "adc"; "pwm"]
  ∧ NoDup result
  ∧ ((∀ rule pat, rule ∈ rule_table → pat ∈ rule.1 →
        ¬ PyStr.occurs pat (PyStr.lower test_path)) → result = []).
Proof.
  intros result. subst result. rewrite infer_eq_table.
  split; [done|]. split; [apply elem_of_infer_by_table|].
  split; [apply (sublist_map_filter snd _ rule_table)|].
  split.
  - apply NoDup_map_filter. by apply (bool_decide_unpack _); vm_compute.
  - intros Hnone. destruct (infer_by_table test_path) as [|p l] eqn:E; [done|].
    assert (p ∈ infer_by_table test_path) as Hp by (rewrite E; left).
    apply elem_of_infer_by_table in Hp as (rule & Hin & _ & pat & Hpat & Hocc).
    by destruct (Hnone rule pat).
Qed.

Lemma infer_required_peripherals_table_witness :
  _infer_required_peripherals "samples/Hello_World" = [].
Proof.
  apply (proj2 (proj2 (proj2 (proj2
           (infer_required_peripherals_table "samples/Hello_World"))))).
  intros rule pat Hrule Hpat. apply contains_false_not_occurs.
  assert (forallb (λ rule, forallb (λ pat,
              negb (PyStr.contains pat (PyStr.lower "samples/Hello_World")))
            rule.1) rule_table = true) as Hall by (by vm_compute).
  rewrite forallb_forall in Hall. apply list_elem_of_In in Hrule, Hpat.
  specialize (Hall rule Hrule). rewrite forallb_forall in Hall.
  by apply negb_true_iff, Hall.
Defined.

(** Lower-casing comes first: an upper-case trigger in the path is
    found, and several triggers of one rule give its peripheral once. *)
Lemma infer_examples :
  _infer_required_peripherals "tests/drivers/I2C/Shell_Console" = ["i2c"; "uart"]
  ∧ _infer_required_peripherals "samples/basic/blinky_gpio" = ["gpio"]
  ∧ _infer_required_peripherals "tests/pwm/adc/spi" = ["spi"; "adc"; "pwm"].
Proof. by vm_compute. Qed.

End InferFacts.

(** ** Plan generation *)

Module GeneratorFacts.
Import Selector.

(** A loop that only appends to its accumulator computes a
    concatenation. *)
Lemma fold_left_append {A B} (g : B → list A) (f : list A → B → list A)
    (l : list B) (acc : list A) :
  (∀ acc x, f acc x = acc ++ g x) →
  fold_left f l acc = acc ++ concat (map g l).
Proof.
  intros Hf. revert acc. induction l as [|x l IH]; intros acc; simpl.
  - by rewrite app_nil_r.
  - by rewrite Hf, IH, app_assoc.
Qed.

Lemma py_in_elem_of x lst : py_in x lst = true ↔ x ∈ lst.
Proof.
  unfold py_in. rewrite existsb_exists, list_elem_of_In. split.
  - intros (y & Hin & Heq). by apply String.eqb_eq in Heq as ->.
  - intros Hin. exists x. by rewrite String.eqb_refl.
Qed.

Lemma all_in_subseteq required lst :
  forallb (λ p, py_in p lst) required = true ↔ required ⊆ lst.
Proof.
  rewrite forallb_forall. split.
  - intros H p Hp. apply py_in_elem_of, H. by apply list_elem_of_In.
  - intros H p Hp. apply py_in_elem_of, H. by apply list_elem_of_In.
Qed.

Lemma dict_get_elem_of {V} k (d : PyDict.t V) v :
  PyDict.get k d = Some v → (k, v) ∈ d.
Proof.
  induction d as [|[k' v'] d IH]; simpl; [done|].
  destruct (String.eqb_spec k k') as [->|Hne].
  - intros [= ->]. left.
  - intros H. right. by apply IH.
Qed.

Lemma dict_get_None {V} k (d : PyDict.t V) :
  PyDict.get k d = None ↔ k ∉ PyDict.keys d.
Proof.
  unfold PyDict.keys. induction d as [|[k' v'] d IH]; simpl.
  - split; [intros _; apply not_elem_of_nil | done].
  - rewrite not_elem_of_cons. destruct (String.eqb_spec k k') as [->|Hne].
    + split; [done | by intros [? _]].
    + rewrite IH. tauto.
Qed.

Lemma generate_for_board_loops loader board_name board_config :
  get_board_config loader board_name = Some board_config →
  generate_for_board loader board_name
  = concat (map (λ '(category, tests),
                   concat (map (step_for board_name board_config category) tests))
              (test_suites board_config)).
Proof.
  intros Hget. unfold generate_for_board. rewrite Hget.
  unfold PyDict.items.
  rewrite (fold_left_append
             (λ '(category, tests),
                concat (map (step_for board_name board_config category) tests))).
  - done.
  - intros acc [category tests].
    apply fold_left_append. intros acc' test_path. unfold step_for, entry_for.
    simpl. destruct (forallb _ _); [done | by rewrite app_nil_r].
Qed.

Lemma inner_steps_filter board_name board_config category tests :
  concat (map (step_for board_name board_config category) tests)
  = entry_for board_name <$>
      filter (λ pair, _infer_required_peripherals pair.2 ⊆ peripherals board_config)
        ((λ test_path, (category, test_path)) <$> tests).
Proof.
  induction tests as [|t tests IH]; [done|].
  csimpl. rewrite filter_cons, IH. unfold step_for at 1.
  destruct (forallb _ _) eqn:Hall; case_decide as Hsub; simpl in *.
  - done.
  - by apply all_in_subseteq in Hall.
  - apply all_in_subseteq in Hsub. congruence.
  - done.
Qed.

Lemma generate_for_board_filter loader board_name board_config :
  get_board_config loader board_name = Some board_config →
  generate_for_board loader board_name
  = entry_for board_name <$>
      filter (λ pair, _infer_required_peripherals pair.2 ⊆ peripherals board_config)
        (declared_pairs board_config).
Proof.
  intros Hget. rewrite (generate_for_board_loops _ _ _ Hget).
  unfold declared_pairs, PyDict.items.
  induction (test_suites board_config) as [|[category tests] suites IH]; [done|].
  rewrite bind_cons, filter_app, fmap_app. simpl.
  by rewrite IH, inner_steps_filter.
Qed.

Lemma elem_of_declared_pairs board_config category test_path :
  (category, test_path) ∈ declared_pairs board_config
  ↔ ∃ tests, (category, tests) ∈ test_suites board_config ∧ test_path ∈ tests.
Proof.
  unfold declared_pairs, PyDict.items. rewrite list_elem_of_bind. split.
  - intros ([c tests] & Hin & Hsuite).
    apply list_elem_of_fmap in Hin as (t & [= -> ->] & Ht). by exists tests.
  - intros (tests & Hsuite & Ht). exists (category, tests). split; [|done].
    apply list_elem_of_fmap. by exists test_path.
Qed.

End GeneratorFacts.

Module GeneratorSpec.
Import Selector GeneratorFacts Examples.

Lemma entry_for_inj board_name : Inj (=) (=) (entry_for board_name).
Proof. intros [c1 t1] [c2 t2]. unfold entry_for. simpl. by intros [= -> ->]. Qed.

Lemma generate_for_all_boards_concat loader board_filter :
  generate_for_all_boards loader board_filter
  = concat (map (generate_for_board loader)
              (if filter_truthy board_filter then default [] board_filter
               else get_all_boards loader)).
Proof.
  unfold generate_for_all_boards.
  by rewrite (fold_left_append (generate_for_board loader)).
Qed.

Lemma generate_for_board_entry_ok loader board_name e :
  e ∈ generate_for_board loader board_name → entry_ok loader e.
Proof.
  destruct (get_board_config loader board_name) as [board_config|] eqn:Hget.
  - rewrite (generate_for_board_filter _ _ _ Hget).
    intros ([category test_path] & -> & Hpair)%list_elem_of_fmap.
    apply list_elem_of_filter in Hpair as [Hsub _].
    exists board_config. by split.
  - unfold generate_for_board. rewrite Hget. by intros ?%elem_of_nil.
Qed.

Lemma entry_okb_ok loader e : entry_okb loader e = true ↔ entry_ok loader e.
Proof.
  unfold entry_okb, entry_ok, supports.
  destruct (get_board_config loader (board e)) as [board_config|].
  - rewrite all_in_subseteq. split.
    + intros Hsub. by exists board_config.
    + by intros (bc & [= <-] & Hsub).
  - split; [done | by intros (bc & ? & _)].
Qed.

(** C1. For a known board, [generate_for_board] walks the declared
    (category, test path) pairs, category outer and test path inner,
    both in declared order, and keeps the entry of a pair exactly when
    every peripheral inferred for the test path is among the board's
    peripherals; a pair with no inferred requirement is always kept. *)
Theorem generate_for_board_keeps_supported loader board_name board_config :
  get_board_config loader board_name = Some board_config →
  generate_for_board loader board_name
  = entry_for board_name <$>
      filter (λ pair, _infer_required_peripherals pair.2 ⊆ peripherals board_config)
        (declared_pairs board_config)
  ∧ (∀ category test_path,
       (category, test_path) ∈ declared_pairs board_config →
       (entry_for board_name (category, test_path)
          ∈ generate_for_board loader board_name
        ↔ ∀ p, p ∈ _infer_required_peripherals test_path →
               p ∈ peripherals board_config))
  ∧ (∀ category test_path,
       (category, test_path) ∈ declared_pairs board_config →
       _infer_required_peripherals test_path = [] →
       entry_for board_name (category, test_path)
         ∈ generate_for_board loader board_name).
Proof.
  intros Hget. rewrite (generate_for_board_filter _ _ _ Hget).
  split; [done|].
  assert (∀ category test_path,
            (category, test_path) ∈ declared_pairs board_config →
            (entry_for board_name (category, test_path)
               ∈ entry_for board_name <$>
                   filter (λ pair, _infer_required_peripherals pair.2
                                     ⊆ peripherals board_config)
                     (declared_pairs board_config)
             ↔ _infer_required_peripherals test_path ⊆ peripherals board_config))
    as Hiff.
  { intros category test_path Hdecl.
    pose proof (entry_for_inj board_name) as Hinj.
    rewrite (list_elem_of_fmap_inj (entry_for board_name)), list_elem_of_filter.
    simpl. tauto. }
  split.
  - intros category test_path Hdecl. by rewrite (Hiff _ _ Hdecl).
  - intros category test_path Hdecl Hnone. apply (Hiff _ _ Hdecl).
    rewrite Hnone. by intros p ?%elem_of_nil.
Qed.

Lemma generate_for_board_keeps_supported_witness :
  generate_for_board loader_ex "gd32f407v_start"
  = [ {| board := "gd32f407v_start"; test_path := "samples/basic/blinky";
         category := "basic"; required_peripherals := ["gpio"] |};
      {| board := "gd32f407v_start"; test_path := "samples/hello_world";
         category := "drivers"; required_peripherals := [] |} ].
Proof.
  rewrite (proj1 (generate_for_board_keeps_supported
                    loader_ex "gd32f407v_start" board_start eq_refl)).
  vm_compute. reflexivity.
Defined.

(** Categories are walked in declared order, and the test paths of a
    category in declared order within it. *)
Lemma declared_pairs_example :
  declared_pairs board_start
  = [ ("basic", "samples/basic/blinky");
      ("drivers", "tests/drivers/i2c");
      ("drivers", "samples/hello_world") ].
Proof. reflexivity. Qed.

(** The two examples of the specification: a board with gpio and uart
    gets the blinky sample, and no I2C driver test. *)
Lemma generate_for_board_examples :
  generate_for_board loader_blinky "gd32f407v_start"
  = [ {| board := "gd32f407v_start"; test_path := "samples/basic/blinky";
         category := "basic"; required_peripherals := ["gpio"] |} ]
  ∧ generate_for_board loader_i2c "gd32f407v_start" = [].
Proof. by vm_compute. Qed.

(** C3, as amended. Every entry produced by [generate_for_board] or by
    [generate_for_all_boards] references a known board whose peripheral
    list contains each of the entry's required peripherals. *)
Theorem per_board_entries_supported loader :
  (∀ board_name e,
     e ∈ generate_for_board loader board_name → entry_ok loader e)
  ∧ (∀ board_filter e,
       e ∈ generate_for_all_boards loader board_filter → entry_ok loader e).
Proof.
  split.
  - apply generate_for_board_entry_ok.
  - intros board_filter e. rewrite generate_for_all_boards_concat.
    rewrite list_elem_of_In, in_concat.
    intros (plans & Hplans & He). apply in_map_iff in Hplans as (b & <- & _).
    apply (generate_for_board_entry_ok loader b). by apply list_elem_of_In.
Qed.

Lemma per_board_entries_supported_witness :
  entry_ok loader_ex
    {| board := "gd32e507z_eval"; test_path := "tests/drivers/i2c";
       category := "drivers"; required_peripherals := ["i2c"] |}.
Proof.
  apply (proj2 (per_board_entries_supported loader_ex) (Some ["gd32e507z_eval"])).
  apply list_elem_of_In. vm_compute. right. left. reflexivity.
Defined.

(** C3, as stated, fails for [generate_by_group]: the group
    [i2c_drivers] names a board without [i2c], and the entry is
    produced all the same. *)
Lemma group_entry_breaks_invariant :
  generate_by_group loader_ex "i2c_drivers"
  = [ {| board := "gd32f407v_start"; test_path := "tests/drivers/i2c";
         category := "i2c_drivers"; required_peripherals := ["i2c"] |} ]
  ∧ ¬ entry_ok loader_ex
        {| board := "gd32f407v_start"; test_path := "tests/drivers/i2c";
           category := "i2c_drivers"; required_peripherals := ["i2c"] |}.
Proof.
  split; [by vm_compute|].
  rewrite <- entry_okb_ok. by vm_compute.
Qed.

(** C4. For a known group, [generate_by_group] resolves the board
    selector (['all'] is the list of all known boards in enumeration
    order, a literal list is taken as it is) and emits exactly one
    entry per (board, test path) pair, board outer and test path
    inner, whatever the board's peripherals. *)
Theorem generate_by_group_all_pairs loader group_name group_config :
  PyDict.get group_name (test_groups loader) = Some group_config →
  resolve_boards loader (Some SelAll) = PyDict.keys (boards loader)
  ∧ (∀ names, resolve_boards loader (Some (SelList names)) = names)
  ∧ generate_by_group loader group_name
    = concat (map (λ board,
                     map (λ test_path,
                            {| board := board;
                               test_path := test_path;
                               category := group_name;
                               required_peripherals :=
                                 _infer_required_peripherals test_path |})
                       (default [] (tests group_config)))
                (resolve_boards loader (group_boards group_config)))
  ∧ length (generate_by_group loader group_name)
    = length (resolve_boards loader (group_boards group_config))
      * length (default [] (tests group_config)).
Proof.
  intros Hget.
  assert (generate_by_group loader group_name
          = concat (map (λ board,
                     map (λ test_path,
                            {| board := board;
                               test_path := test_path;
                               category := group_name;
                               required_peripherals :=
                                 _infer_required_peripherals test_path |})
                       (default [] (tests group_config)))
                (resolve_boards loader (group_boards group_config)))) as Heq.
  { unfold generate_by_group. rewrite Hget.
    destruct (group_truthy group_config) eqn:Htruthy; simpl.
    - rewrite (fold_left_append
                 (λ board,
                    map (λ test_path,
                           {| board := board;
                              test_path := test_path;
                              category := group_name;
                              required_peripherals :=
                                _infer_required_peripherals test_path |})
                      (default [] (tests group_config)))).
      + simpl. f_equal. f_equal.
        by destruct (group_boards group_config) as [[|names]|].
      + intros acc board.
        rewrite (fold_left_append
                   (λ test_path,
                      [ {| board := board;
                           test_path := test_path;
                           category := group_name;
                           required_peripherals :=
                             _infer_required_peripherals test_path |} ])).
        * f_equal. induction (default [] (tests group_config)); simpl; by f_equal.
        * done.
    - destruct group_config as [[?|] [?|] [?|]]; try discriminate Htruthy.
      done. }
  split; [done|]. split; [done|]. split; [done|].
  rewrite Heq. clear Heq.
  induction (resolve_boards loader (group_boards group_config)) as [|b bs IH];
    simpl; [done|].
  by rewrite length_app, length_map, IH.
Qed.

Lemma generate_by_group_all_pairs_witness :
  generate_by_group loader_ex "essential"
  = [ {| board := "gd32f407v_start"; test_path := "samples/hello_world";
         category := "essential"; required_peripherals := [] |};
      {| board := "gd32f407v_start"; test_path := "samples/basic/blinky";
         category := "essential"; required_peripherals := ["gpio"] |};
      {| board := "gd32e507z_eval"; test_path := "samples/hello_world";
         category := "essential"; required_peripherals := [] |};
      {| board := "gd32e507z_eval"; test_path := "samples/basic/blinky";
         category := "essential"; required_peripherals := ["gpio"] |} ].
Proof.
  rewrite (proj1 (proj2 (proj2
    (generate_by_group_all_pairs loader_ex "essential"
       {| description := Some "Smoke tests";
          tests := Some ["samples/hello_world"; "samples/basic/blinky"];
          group_boards := Some SelAll |} eq_refl)))).
  vm_compute. reflexivity.
Defined.

(** C5, as amended. Without a filter, or with an empty filter list,
    [generate_for_all_boards] is the concatenation of
    [generate_for_board] over all known boards in the enumeration order
    of the board registry; with a non-empty filter it is the
    concatenation over the filter's boards in the order supplied. *)
Theorem generate_for_all_boards_order loader :
  generate_for_all_boards loader None
  = concat (map (generate_for_board loader) (PyDict.keys (boards loader)))
  ∧ generate_for_all_boards loader (Some [])
    = concat (map (generate_for_board loader) (PyDict.keys (boards loader)))
  ∧ (∀ b bs,
       generate_for_all_boards loader (Some (b :: bs))
       = concat (map (generate_for_board loader) (b :: bs))).
Proof.
  split; [|split]; intros; by rewrite generate_for_all_boards_concat.
Qed.

(** C5, as stated, fails at the empty filter list: the concatenation
    over the filter's boards is empty, the result is not. *)
Lemma empty_filter_not_concat_over_filter :
  generate_for_all_boards loader_ex (Some [])
  ≠ concat (map (generate_for_board loader_ex) []).
Proof. by vm_compute. Qed.

(** Without a filter the boards come in declaration order, here
    [gd32f407v_start] before [gd32e507z_eval], not sorted by name. *)
Lemma no_filter_follows_declaration_order :
  map board (generate_for_all_boards loader_ex None)
  = [ "gd32f407v_start"; "gd32f407v_start"; "gd32e507z_eval"; "gd32e507z_eval" ]
  ∧ String.ltb "gd32e507z_eval" "gd32f407v_start" = true.
Proof. by vm_compute. Qed.

(** C6. A board name that is not in the configuration gives an empty
    plan from [generate_for_board], and a group name that is not in the
    configuration gives an empty plan from [generate_by_group]; both
    are ordinary return values. *)
Theorem unknown_reference_gives_empty_plan loader name :
  (name ∉ PyDict.keys (boards loader) → generate_for_board loader name = [])
  ∧ (name ∉ PyDict.keys (test_groups loader) → generate_by_group loader name = []).
Proof.
  split; intros Hnot%dict_get_None.
  - unfold generate_for_board, get_board_config. by rewrite Hnot.
  - unfold generate_by_group. by rewrite Hnot.
Qed.

Lemma unknown_reference_gives_empty_plan_witness :
  generate_for_board loader_ex "gd32vf103v_eval" = []
  ∧ generate_by_group loader_ex "nightly" = [].
Proof.
  split.
  - apply (proj1 (unknown_reference_gives_empty_plan loader_ex "gd32vf103v_eval")).
    by apply (bool_decide_unpack _); vm_compute.
  - apply (proj2 (unknown_reference_gives_empty_plan loader_ex "nightly")).
    by apply (bool_decide_unpack _); vm_compute.
Defined.

(** C10. An empty board-filter list is treated as no filter:
    [generate_for_all_boards] then plans for all known boards. *)
Theorem empty_filter_is_no_filter loader :
  generate_for_all_boards loader (Some []) = generate_for_all_boards loader None
  ∧ generate_for_all_boards loader (Some [])
    = concat (map (generate_for_board loader) (get_all_boards loader))
  ∧ length (generate_for_all_boards loader_ex (Some [])) = 4.
Proof.
  split; [done|]. split; [|by vm_compute].
  by rewrite generate_for_all_boards_concat.
Qed.

End GeneratorSpec.

(** ** Plan export and summary *)

Module ExportSpec.
Import Selector Examples.

Lemma len_set_enumeration (xs names : list string) :
  NoDup names → (∀ x, x ∈ names ↔ x ∈ xs) → len_set xs = length names.
Proof.
  intros Hnd Hsame. unfold len_set.
  rewrite <- (size_list_to_set (C:=gset string) names Hnd). f_equal.
  apply set_eq. intros x. by rewrite !elem_of_list_to_set.
Qed.

Lemma len_set_remove_dups (xs : list string) :
  len_set xs = length (remove_dups xs).
Proof.
  apply len_set_enumeration; [apply NoDup_remove_dups|].
  intros x. apply elem_of_remove_dups.
Qed.

(** C7. The summary of an exported plan holds the plan's length, the
    number of distinct board names and the number of distinct test
    paths among its entries, and [print_summary] prints the same three
    figures; entries for boards A, A, B and test paths t1, t2, t1 give
    3, 2 and 2. *)
Theorem summary_counts_distinct (test_plans : list TestPlan) :
  document_field "summary" (export_to_json test_plans)
  = Some (JDict
      [ ("total_tests", JInt (Z.of_nat (length test_plans)));
        ("boards",
         JInt (Z.of_nat (length (remove_dups (map board test_plans)))));
        ("unique_tests",
         JInt (Z.of_nat (length (remove_dups (map test_path test_plans))))) ])
  ∧ print_summary_counts test_plans
    = (length test_plans,
       length (remove_dups (map board test_plans)),
       length (remove_dups (map test_path test_plans)))
  ∧ (∀ names, NoDup names →
       (∀ b, b ∈ names ↔ ∃ e, e ∈ test_plans ∧ board e = b) →
       len_set (map board test_plans) = length names)
  ∧ (∀ paths, NoDup paths →
       (∀ t, t ∈ paths ↔ ∃ e, e ∈ test_plans ∧ test_path e = t) →
       len_set (map test_path test_plans) = length paths)
  ∧ document_field "summary" (export_to_json plan_aab)
    = Some (JDict [ ("total_tests", JInt 3); ("boards", JInt 2);
                    ("unique_tests", JInt 2) ]).
Proof.
  split; [|split; [|split; [|split]]].
  - unfold export_to_json. simpl. by rewrite !len_set_remove_dups.
  - unfold print_summary_counts. fold (len_set (map board test_plans)).
    fold (len_set (map test_path test_plans)). by rewrite !len_set_remove_dups.
  - intros names Hnd Hsame. apply len_set_enumeration; [done|].
    intros b. rewrite Hsame, list_elem_of_In, in_map_iff.
    split; intros (e & H1 & H2); exists e; by rewrite ?list_elem_of_In in *.
  - intros paths Hnd Hsame. apply len_set_enumeration; [done|].
    intros t. rewrite Hsame, list_elem_of_In, in_map_iff.
    split; intros (e & H1 & H2); exists e; by rewrite ?list_elem_of_In in *.
  - by vm_compute.
Qed.

Lemma summary_counts_distinct_witness :
  len_set (map board plan_aab) = 2 ∧ len_set (map test_path plan_aab) = 2.
Proof.
  split.
  - apply (proj1 (proj2 (proj2 (summary_counts_distinct plan_aab))) ["A"; "B"]).
    + by apply (bool_decide_unpack _); vm_compute.
    + intros b. split.
      * intros Hb. apply list_elem_of_In in Hb.
        destruct Hb as [<-|[<-|[]]].
        -- eexists. split; [apply list_elem_of_here | reflexivity].
        -- eexists. split; [do 2 apply list_elem_of_further; apply list_elem_of_here | reflexivity].
      * intros (e & He & <-). apply list_elem_of_In in He.
        destruct He as [<-|[<-|[<-|[]]]]; apply list_elem_of_In; simpl; auto.
  - apply (proj1 (proj2 (proj2 (proj2 (summary_counts_distinct plan_aab)))) ["t1"; "t2"]).
    + by apply (bool_decide_unpack _); vm_compute.
    + intros t. split.
      * intros Ht. apply list_elem_of_In in Ht.
        destruct Ht as [<-|[<-|[]]].
        -- eexists. split; [apply list_elem_of_here | reflexivity].
        -- eexists. split; [apply list_elem_of_further, list_elem_of_here | reflexivity].
      * intros (e & He & <-). apply list_elem_of_In in He.
        destruct He as [<-|[<-|[<-|[]]]]; apply list_elem_of_In; simpl; auto.
Defined.

Lemma read_strings (l : list string) : mapM read_str (JStr <$> l) = Some l.
Proof. by apply mapM_fmap_Some. Qed.

Lemma read_record_plan_record (plan : TestPlan) :
  read_record (plan_record plan) = Some plan.
Proof.
  destruct plan as [b t c r]. unfold plan_record, read_record. simpl.
  change (map JStr r) with (JStr <$> r). by rewrite read_strings.
Qed.

(** C8. The [test_plans] array of the exported document holds one
    record per plan entry, in the plan's order, each carrying the
    entry's board, test path, category and required peripherals, and
    reading the array back gives the plan itself. *)
Theorem export_round_trip (test_plans : list TestPlan) :
  document_field "test_plans" (export_to_json test_plans)
  = Some (JList (map plan_record test_plans))
  ∧ length (map plan_record test_plans) = length test_plans
  ∧ (∀ i, map plan_record test_plans !! i
          = (λ plan,
               JDict [ ("board", JStr (board plan));
                       ("test_path", JStr (test_path plan));
                       ("category", JStr (category plan));
                       ("required_peripherals",
                        JList (map JStr (required_peripherals plan))) ])
            <$> test_plans !! i)
  ∧ read_test_plans (export_to_json test_plans) = Some test_plans.
Proof.
  split; [done|]. split; [apply length_map|]. split.
  - intros i. apply (list_lookup_fmap plan_record).
  - unfold read_test_plans, export_to_json. simpl.
    apply mapM_fmap_Some, read_record_plan_record.
Qed.

End ExportSpec.

(** ** Splitting and joining lines *)

Module LineFacts.
Import PyStr PyStrFacts.

Lemma last_items_length {A} n (l : list A) :
  length (last_items n l) = Nat.min n (length l).
Proof. unfold last_items. rewrite length_drop. lia. Qed.

Lemma last_items_suffix {A} n (l : list A) : last_items n l `suffix_of` l.
Proof. apply suffix_drop. Qed.

Lemma rev_app_rev_app a b c :
  String.rev_app (String.rev_app a b) c = String.rev_app b (a +:+ c).
Proof.
  revert b c. induction a as [|x a IH]; intros b c; simpl; [done|].
  by rewrite IH.
Qed.

Lemma rev_rev_app a : String.rev (String.rev_app a "") = a +:+ "".
Proof. unfold String.rev. by rewrite rev_app_rev_app. Qed.

Lemma app_empty_r a : a +:+ "" = a.
Proof. induction a as [|x a IH]; [done|]. by rewrite app_cons, IH. Qed.

Lemma has_char_rev_app c a b :
  has_char c (String.rev_app a b) = has_char c a || has_char c b.
Proof.
  revert b. induction a as [|x a IH]; intros b; simpl; [done|].
  rewrite IH. simpl. destruct (Ascii.eqb x c), (has_char c a); simpl; done.
Qed.

(** Every field produced by [split] is free of the separator. *)
Lemma split_go_fields sep cur s :
  has_char sep cur = false →
  Forall (λ field, has_char sep field = false) (split_go sep cur s).
Proof.
  revert cur. induction s as [|x s IH]; intros cur Hcur; simpl.
  - constructor; [|constructor]. unfold String.rev.
    by rewrite has_char_rev_app, Hcur.
  - destruct (Ascii.eqb x sep) eqn:Hx.
    + constructor; [|by apply IH]. unfold String.rev.
      by rewrite has_char_rev_app, Hcur.
    + apply IH. simpl. by rewrite Hx.
Qed.

Lemma split_fields sep s :
  Forall (λ field, has_char sep field = false) (split sep s).
Proof. by apply split_go_fields. Qed.

Lemma split_go_prefix sep a cur s :
  has_char sep a = false →
  split_go sep cur (a +:+ s) = split_go sep (String.rev_app a cur) s.
Proof.
  revert cur. induction a as [|x a IH]; intros cur Ha; [done|].
  simpl in Ha. apply orb_false_iff in Ha as [Hx Ha].
  rewrite app_cons. simpl. by rewrite Hx, IH.
Qed.

(** Splitting a separator-free head followed by the separator. *)
Lemma split_head sep a s :
  has_char sep a = false →
  split sep (a +:+ String sep s) = a :: split sep s.
Proof.
  intros Ha. unfold split. rewrite split_go_prefix by done. simpl.
  by rewrite Ascii.eqb_refl, rev_rev_app, app_empty_r.
Qed.

Lemma split_single sep a : has_char sep a = false → split sep a = [a].
Proof.
  intros Ha. unfold split. rewrite <- (app_empty_r a) at 1.
  rewrite split_go_prefix by done. simpl.
  by rewrite rev_rev_app, app_empty_r.
Qed.

(** Joining separator-free fields and splitting again gives the
    fields back. *)
Lemma split_join sep fields :
  fields ≠ [] →
  Forall (λ field, has_char sep field = false) fields →
  split sep (join (String sep "") fields) = fields.
Proof.
  intros Hne Hfree. induction Hfree as [|a fields Ha Hfree IH]; [done|].
  destruct fields as [|b fields].
  - simpl. by apply split_single.
  - change (join (String sep "") (a :: b :: fields))
      with (a +:+ String sep "" +:+ join (String sep "") (b :: fields)).
    rewrite app_cons. change ("" +:+ ?x) with x.
    rewrite split_head by done. f_equal. by apply IH.
Qed.

End LineFacts.

(** ** Build invocation *)

Module BuildSpec.
Import Tester LineFacts Examples.

Lemma Forall_list_filter {A} (P : A → Prop) (f : A → bool) (l : list A) :
  Forall P l → Forall P (List.filter f l).
Proof.
  induction 1 as [|x l Hx Hl IH]; simpl; [constructor|].
  destruct (f x); [by constructor | done].
Qed.

Lemma error_excerpt_cases output :
  match List.filter is_error_line (PyStr.split nl_char output) with
  | [] =>
      error_excerpt output `suffix_of` PyStr.split nl_char (PyStr.strip output)
      ∧ length (error_excerpt output)
        = Nat.min 10 (length (PyStr.split nl_char (PyStr.strip output)))
  | error_line :: error_lines =>
      error_excerpt output `suffix_of` error_line :: error_lines
      ∧ length (error_excerpt output)
        = Nat.min 5 (length (error_line :: error_lines))
  end.
Proof.
  unfold error_excerpt.
  destruct (List.filter is_error_line (PyStr.split nl_char output)).
  - split; [apply last_items_suffix | apply last_items_length].
  - split; [apply last_items_suffix | apply last_items_length].
Qed.

Lemma error_excerpt_fields output :
  Forall (λ line, PyStr.has_char nl_char line = false) (error_excerpt output).
Proof.
  unfold error_excerpt.
  pose proof (Forall_list_filter _ is_error_line _ (split_fields nl_char output))
    as Hfilter.
  destruct (List.filter is_error_line (PyStr.split nl_char output)).
  - apply Forall_drop, split_fields.
  - by apply Forall_drop.
Qed.

Lemma error_excerpt_length output : length (error_excerpt output) ≤ 10.
Proof.
  pose proof (error_excerpt_cases output) as H.
  destruct (List.filter is_error_line (PyStr.split nl_char output));
    destruct H as [_ ->]; lia.
Qed.

Lemma failure_message_line_count output :
  line_count (failure_message output) ≤ 11.
Proof.
  unfold line_count, failure_message.
  change (nl +:+ ?x) with (String nl_char x).
  rewrite split_head by done. simpl.
  destruct (error_excerpt output) as [|line lines] eqn:E.
  - simpl. lia.
  - rewrite <- E. change nl with (String nl_char "").
    rewrite split_join.
    + pose proof (error_excerpt_length output). lia.
    + by rewrite E.
    + apply error_excerpt_fields.
Qed.

(** C9, as amended. [west_build] always returns a [BuildResult]; it
    succeeds exactly when the process completes with exit status 0. A
    non-zero exit status gives a failed result whose message is
    ["Build failed:"] followed by the last five error-marker lines of
    the output at most, or by the last ten lines of the stripped output
    at most when no line carries an error marker; a timeout gives a
    failed result with the message ["Build timeout after <timeout>s"];
    any other exception gives a failed result whose message is
    ["Build error: "] followed by the whole exception text. *)
Theorem west_build_classifies board testcase pristine build_dir zephyr_base
    timeout world :
  let outcome :=
    run world (build_command board testcase pristine build_dir zephyr_base) in
  let result :=
    west_build board testcase pristine build_dir zephyr_base timeout world in
  success result = negb (is_failure outcome)
  ∧ match outcome with
    | Completed returncode output =>
        if (returncode =? 0)%Z
        then success result = true ∧ message result = "Build successful"
        else
          success result = false
          ∧ message result
            = "Build failed:" +:+ nl +:+ PyStr.join nl (error_excerpt output)
          ∧ match List.filter is_error_line (PyStr.split nl_char output) with
            | [] =>
                error_excerpt output
                  `suffix_of` PyStr.split nl_char (PyStr.strip output)
                ∧ length (error_excerpt output)
                  = Nat.min 10 (length (PyStr.split nl_char (PyStr.strip output)))
            | error_line :: error_lines =>
                error_excerpt output `suffix_of` error_line :: error_lines
                ∧ length (error_excerpt output)
                  = Nat.min 5 (length (error_line :: error_lines))
            end
          ∧ line_count (message result) ≤ 11
    | TimeoutExpired =>
        success result = false
        ∧ message result = "Build timeout after " +:+ pretty timeout +:+ "s"
    | Raised e =>
        success result = false ∧ message result = "Build error: " +:+ e
    end.
Proof.
  intros outcome result. subst result. unfold west_build. fold outcome.
  destruct outcome as [returncode output| |e]; simpl.
  - destruct (returncode =? 0)%Z; simpl; [done|].
    split; [done|]. split; [done|]. split; [done|].
    split; [apply error_excerpt_cases | apply failure_message_line_count].
  - done.
  - done.
Qed.

(** C9, as stated, fails for the timeout and the exception class: the
    timeout message is a fixed text that is no excerpt of any process
    output, and the exception message carries the whole exception
    text, here twelve lines, where a failed build's message never has
    more than eleven. *)
Lemma timeout_and_exception_messages_not_excerpts :
  success timeout_result = false
  ∧ message timeout_result = "Build timeout after 600s"
  ∧ (∀ output, message timeout_result ≠ failure_message output)
  ∧ success raised_result = false
  ∧ message raised_result = "Build error: " +:+ long_exception_text
  ∧ line_count (message raised_result) = 12
  ∧ (∀ output, line_count (failure_message output) ≤ 11).
Proof.
  split; [done|]. split; [by vm_compute|]. split.
  { intros output. unfold failure_message.
    change (message timeout_result) with "Build timeout after 600s".
    rewrite !PyStrFacts.app_cons. intros H. discriminate H. }
  split; [done|]. split; [done|]. split; [by vm_compute|].
  apply failure_message_line_count.
Qed.

Lemma substring_length_le n m s : String.length (String.substring n m s) ≤ m.
Proof.
  revert n m. induction s as [|c s IH]; intros [|n] [|m]; simpl; try lia.
  - specialize (IH 0 m). lia.
  - apply (IH n 0).
  - apply (IH n (S m)).
Qed.

Lemma substring_whole s : String.substring 0 (String.length s) s = s.
Proof. induction s as [|c s IH]; simpl; [done | by rewrite IH]. Qed.

Lemma substring_tail n s :
  n ≤ String.length s →
  ∃ pre, s = pre +:+ String.substring n (String.length s - n) s.
Proof.
  revert n. induction s as [|c s IH]; intros [|n] Hn; simpl in *; try lia.
  - by exists "".
  - exists "". by rewrite substring_whole.
  - destruct (IH n) as [pre Hpre]; [lia|].
    exists (String c pre). by rewrite PyStrFacts.app_cons, <- Hpre.
Qed.

(** The captured output kept in a result is the tail of the process
    output, [MAX_LOG_LENGTH] characters at most. *)
Lemma truncate_log_tail output :
  String.length (truncate_log output) ≤ MAX_LOG_LENGTH
  ∧ ∃ pre, output = pre +:+ truncate_log output.
Proof.
  unfold truncate_log. destruct (Nat.ltb_spec MAX_LOG_LENGTH (String.length output)).
  - split; [apply substring_length_le|]. unfold PyStr.last_chars.
    destruct (substring_tail (String.length output - MAX_LOG_LENGTH) output)
      as [pre Hpre]; [lia|].
    exists pre.
    by replace (String.length output - (String.length output - MAX_LOG_LENGTH))
      with MAX_LOG_LENGTH in Hpre by lia.
  - split; [done | by exists ""].
Qed.

(** A failed build whose output has two error-marker lines. *)
Lemma failed_build_message :
  message (west_build "gd32f407v_start" blinky_case "auto" "/tmp/build"
             "/zephyr" 600 (world_of (Completed 1 failing_output)))
  = PyStr.join nl
      [ "Build failed:";
        "main.c:3:10: fatal error: missing.h: No such file";
        "FATAL ERROR: command exited with status 1: cmake" ].
Proof. by vm_compute. Qed.

End BuildSpec.

(** ** Dictionaries *)

Module PyDictFacts.
Import PyDict.

Lemma mem_keys {V} k (d : t V) : mem k d = true ↔ k ∈ keys d.
Proof.
  unfold mem, keys. induction d as [|[k' v'] d IH]; simpl.
  - split; [done | by intros ?%elem_of_nil].
  - rewrite elem_of_cons. destruct (String.eqb_spec k k') as [->|Hne].
    + split; [by left | done].
    + rewrite IH. split; [by right | by intros [?|?]].
Qed.

Lemma get_None_keys {V} k (d : t V) : get k d = None ↔ k ∉ keys d.
Proof.
  rewrite <- mem_keys. unfold mem. destruct (get k d); split; done.
Qed.

Lemma get_set_eq {V} k v (d : t V) : get k (set k v d) = Some v.
Proof.
  induction d as [|[k' v'] d IH]; simpl.
  - by rewrite String.eqb_refl.
  - destruct (String.eqb_spec k k') as [->|Hne]; simpl.
    + by rewrite String.eqb_refl.
    + by destruct (String.eqb_spec k k').
Qed.

Lemma get_set_ne {V} k k' v (d : t V) : k ≠ k' → get k' (set k v d) = get k' d.
Proof.
  intros Hne. induction d as [|[k0 v0] d IH]; simpl.
  - by destruct (String.eqb_spec k' k) as [->|].
  - destruct (String.eqb_spec k k0) as [->|Hne0]; simpl.
    + by destruct (String.eqb_spec k' k0) as [->|].
    + by rewrite IH.
Qed.

Lemma set_fresh {V} k v (d : t V) : k ∉ keys d → set k v d = d ++ [(k, v)].
Proof.
  unfold keys. induction d as [|[k' v'] d IH]; simpl; [done|].
  rewrite not_elem_of_cons. intros [Hne Hnotin].
  destruct (String.eqb_spec k k'); [done|]. by rewrite IH.
Qed.

Lemma keys_set_present {V} k v (d : t V) : k ∈ keys d → keys (set k v d) = keys d.
Proof.
  unfold keys. induction d as [|[k' v'] d IH]; simpl.
  - by intros ?%elem_of_nil.
  - destruct (String.eqb_spec k k') as [->|Hne]; simpl; [done|].
    rewrite elem_of_cons. intros [?|Hin]; [done|]. by rewrite IH.
Qed.

Lemma keys_set_fresh {V} k v (d : t V) : k ∉ keys d → keys (set k v d) = keys d ++ [k].
Proof. intros Hk. rewrite set_fresh by done. unfold keys. by rewrite map_app. Qed.

(** With distinct keys, an item is in the dictionary exactly when the
    lookup of its key finds its value. *)
Lemma elem_of_get {V} k v (d : t V) :
  NoDup (keys d) → ((k, v) ∈ d ↔ get k d = Some v).
Proof.
  unfold keys. induction d as [|[k' v'] d IH]; simpl.
  - intros _. split; [by intros ?%elem_of_nil | done].
  - rewrite NoDup_cons. intros [Hnotin Hnd]. rewrite elem_of_cons.
    destruct (String.eqb_spec k k') as [->|Hne].
    + split.
      * intros [[= ->]|Hin]; [done|]. destruct Hnotin.
        apply list_elem_of_In, in_map_iff. exists (k', v).
        by rewrite <- list_elem_of_In.
      * intros [= ->]. by left.
    + rewrite <- (IH Hnd). split; [|by right].
      by intros [[= -> ->]|Hin].
Qed.

End PyDictFacts.

(** ** Loading the configuration and querying the board registry *)

Module LoaderSpec.
Import Selector PyDictFacts GeneratorFacts Examples.

Lemma load_boards_fold (f : PyDict.t BoardConfig → string * BoardInfo → PyDict.t BoardConfig)
    (boards_data : PyDict.t BoardInfo) (acc : PyDict.t BoardConfig) :
  (∀ acc n i, f acc (n, i) = PyDict.set n (board_config_of n i) acc) →
  NoDup (PyDict.keys acc ++ PyDict.keys boards_data) →
  fold_left f boards_data acc
  = acc ++ map (λ item, (item.1, board_config_of item.1 item.2)) boards_data.
Proof.
  intros Hf. revert acc.
  induction boards_data as [|[n i] rest IH]; intros acc Hnd; simpl.
  - by rewrite app_nil_r.
  - rewrite Hf. unfold PyDict.keys in Hnd. simpl in Hnd.
    apply NoDup_app in Hnd as (Hacc & Hdisj & Hrest).
    apply NoDup_cons in Hrest as [Hn Hrest].
    assert (n ∉ PyDict.keys acc) as Hfresh.
    { intros Hin. apply (Hdisj n Hin). left. }
    rewrite set_fresh by done. rewrite IH.
    + by rewrite <- app_assoc.
    + unfold PyDict.keys. rewrite map_app. simpl. rewrite <- app_assoc. simpl.
      apply NoDup_app. split; [done|]. split.
      * intros x Hx. rewrite elem_of_cons. intros [->|Hin]; [done|].
        apply (Hdisj x Hx). by right.
      * by apply NoDup_cons.
Qed.

Lemma get_built_configs (board_name : string) (boards_data : PyDict.t BoardInfo) :
  PyDict.get board_name
    (map (λ item, (item.1, board_config_of item.1 item.2)) boards_data)
  = board_config_of board_name <$> PyDict.get board_name boards_data.
Proof.
  induction boards_data as [|[n i] rest IH]; simpl; [done|].
  by destruct (String.eqb_spec board_name n) as [->|].
Qed.

(** A missing configuration file is an error. For a file whose
    [boards] section has distinct keys, as every parsed mapping has,
    the loader knows exactly the declared boards in declared order, a
    lookup finds the configuration built from the board's entry with the
    defaults [unknown], [[]], [{}] and [arm] for missing keys and with
    the key as its name, and the test groups are taken over as they
    are. *)
Theorem load_config_registry :
  load_config None = None
  ∧ ∀ data,
      NoDup (PyDict.keys (default [] (data_boards data))) →
      ∃ loader,
        load_config (Some data) = Some loader
        ∧ get_all_boards loader = PyDict.keys (default [] (data_boards data))
        ∧ (∀ board_name,
             get_board_config loader board_name
             = board_config_of board_name
                 <$> PyDict.get board_name (default [] (data_boards data)))
        ∧ (∀ board_name board_config,
             get_board_config loader board_name = Some board_config →
             name board_config = board_name)
        ∧ test_groups loader = default [] (data_test_groups data).
Proof.
  split; [done|]. intros data Hnd. eexists. split; [reflexivity|].
  unfold get_all_boards, get_board_config. simpl. unfold PyDict.items.
  rewrite (load_boards_fold _ _ []); [|by intros ? ? ?|done]. simpl.
  split; [|split; [|split]].
  - unfold PyDict.keys. rewrite map_map. simpl. done.
  - intros board_name. apply get_built_configs.
  - intros board_name board_config. rewrite get_built_configs.
    destruct (PyDict.get board_name _); [|done]. by intros [= <-].
  - done.
Qed.

Lemma load_config_registry_witness :
  ∃ loader,
    load_config (Some config_ex) = Some loader
    ∧ get_all_boards loader = ["gd32f407v_start"; "gd32vf103v_eval"]
    ∧ get_board_config loader "gd32vf103v_eval"
      = Some {| name := "gd32vf103v_eval"; series := "unknown";
                peripherals := []; test_suites := []; arch := "arm" |}.
Proof.
  destruct (proj2 load_config_registry config_ex) as (loader & Hload & Hkeys & Hget & _).
  - by apply (bool_decide_unpack _); vm_compute.
  - exists loader. split; [done|]. split; [done|]. by rewrite Hget.
Defined.

(** The names selected by a comprehension over the board registry. *)
Lemma elem_of_selected {V} (cond : V → bool) (d : PyDict.t V) (k : string) :
  k ∈ ('(name, v) ← d; if cond v then [name] else [])
  ↔ ∃ v, (k, v) ∈ d ∧ cond v = true.
Proof.
  rewrite list_elem_of_bind. split.
  - intros ([n v] & Hin & Hitem). destruct (cond v) eqn:Hc.
    + apply list_elem_of_singleton in Hin as ->. by exists v.
    + by apply elem_of_nil in Hin.
  - intros (v & Hitem & Hc). exists (k, v). rewrite Hc. split; [left | done].
Qed.

Lemma sublist_selected {V} (cond : V → bool) (d : PyDict.t V) :
  sublist ('(name, v) ← d; if cond v then [name] else []) (PyDict.keys d).
Proof.
  unfold PyDict.keys. induction d as [|[n v] d IH]; [constructor|].
  rewrite bind_cons. simpl. destruct (cond v); simpl; by constructor.
Qed.

(** [get_boards_with_peripheral] lists, in registry order and without
    repetition, exactly the known boards whose peripheral list contains
    the peripheral (the registry's keys being distinct). *)
Theorem get_boards_with_peripheral_exact loader peripheral :
  NoDup (get_all_boards loader) →
  sublist (get_boards_with_peripheral loader peripheral) (get_all_boards loader)
  ∧ NoDup (get_boards_with_peripheral loader peripheral)
  ∧ ∀ board_name,
      board_name ∈ get_boards_with_peripheral loader peripheral
      ↔ ∃ board_config,
          get_board_config loader board_name = Some board_config
          ∧ peripheral ∈ peripherals board_config.
Proof.
  intros Hnd.
  pose proof (sublist_selected (λ b, py_in peripheral (peripherals b)) (boards loader))
    as Hsub.
  split; [done|]. split; [by eapply sublist_NoDup|].
  intros board_name. unfold get_boards_with_peripheral, PyDict.items.
  rewrite (elem_of_selected (λ b, py_in peripheral (peripherals b))).
  unfold get_board_config.
  split; intros (cfg & H1 & H2); exists cfg.
  - by rewrite <- elem_of_get, <- py_in_elem_of.
  - by rewrite elem_of_get, py_in_elem_of.
Qed.

Lemma get_boards_with_peripheral_exact_witness :
  get_boards_with_peripheral loader_ex "i2c" = ["gd32e507z_eval"]
  ∧ NoDup (get_boards_with_peripheral loader_ex "gpio").
Proof.
  split; [by vm_compute|].
  apply (get_boards_with_peripheral_exact loader_ex "gpio").
  by apply (bool_decide_unpack _); vm_compute.
Defined.

(** [get_boards_by_series] lists, in registry order and without
    repetition, exactly the known boards whose series is the given
    string, compared exactly. *)
Theorem get_boards_by_series_exact loader wanted :
  NoDup (get_all_boards loader) →
  sublist (get_boards_by_series loader wanted) (get_all_boards loader)
  ∧ NoDup (get_boards_by_series loader wanted)
  ∧ ∀ board_name,
      board_name ∈ get_boards_by_series loader wanted
      ↔ ∃ board_config,
          get_board_config loader board_name = Some board_config
          ∧ series board_config = wanted.
Proof.
  intros Hnd.
  pose proof (sublist_selected (λ b, String.eqb (series b) wanted) (boards loader))
    as Hsub.
  split; [done|]. split; [by eapply sublist_NoDup|].
  intros board_name. unfold get_boards_by_series, PyDict.items.
  rewrite (elem_of_selected (λ b, String.eqb (series b) wanted)).
  unfold get_board_config.
  split; intros (cfg & H1 & H2); exists cfg.
  - by rewrite <- elem_of_get, <- String.eqb_eq.
  - by rewrite elem_of_get, String.eqb_eq.
Qed.

Lemma get_boards_by_series_exact_witness :
  get_boards_by_series loader_ex "gd32f4xx" = ["gd32f407v_start"]
  ∧ get_boards_by_series loader_ex "GD32F4XX" = []
  ∧ NoDup (get_boards_by_series loader_ex "gd32e50x").
Proof.
  split; [by vm_compute|]. split; [by vm_compute|].
  apply (get_boards_by_series_exact loader_ex "gd32e50x").
  by apply (bool_decide_unpack _); vm_compute.
Defined.

End LoaderSpec.

(** ** Peripheral lists and plan generation together *)

Module SelectionSpec.
Import Selector PyDictFacts GeneratorFacts Examples.

(** For a known board, a declared test is planned by
    [generate_for_board] exactly when the board is listed by
    [get_boards_with_peripheral] for every peripheral inferred for the
    test path. *)
Theorem planned_iff_listed_for_each_peripheral loader board_name board_config
    category test_path :
  NoDup (get_all_boards loader) →
  get_board_config loader board_name = Some board_config →
  (category, test_path) ∈ declared_pairs board_config →
  (entry_for board_name (category, test_path) ∈ generate_for_board loader board_name
   ↔ ∀ p, p ∈ _infer_required_peripherals test_path →
          board_name ∈ get_boards_with_peripheral loader p).
Proof.
  intros Hnd Hget Hdecl. rewrite (generate_for_board_filter _ _ _ Hget).
  assert (Inj (=) (=) (entry_for board_name)) as Hinj.
  { intros [c1 t1] [c2 t2]. unfold entry_for. simpl. by intros [= -> ->]. }
  rewrite (list_elem_of_fmap_inj (entry_for board_name)), list_elem_of_filter.
  simpl.
  assert (∀ p, board_name ∈ get_boards_with_peripheral loader p
               ↔ p ∈ peripherals board_config) as Hlisted.
  { intros p. unfold get_boards_with_peripheral, PyDict.items.
    rewrite (LoaderSpec.elem_of_selected (λ b, py_in p (peripherals b))). split.
    - intros (cfg & Hitem & Hp). apply elem_of_get in Hitem; [|done].
      unfold get_board_config in Hget. rewrite Hget in Hitem.
      injection Hitem as <-. by apply py_in_elem_of.
    - intros Hp. exists board_config. split; [by apply elem_of_get | by apply py_in_elem_of]. }
  split.
  - intros [Hsub _] p Hp. apply Hlisted. by apply Hsub.
  - intros Hall. split; [|done]. intros p Hp. by apply Hlisted, Hall.
Qed.

Lemma planned_iff_listed_for_each_peripheral_witness :
  entry_for "gd32e507z_eval" ("drivers", "tests/drivers/i2c")
    ∈ generate_for_board loader_ex "gd32e507z_eval"
  ↔ ∀ p, p ∈ _infer_required_peripherals "tests/drivers/i2c" →
         "gd32e507z_eval" ∈ get_boards_with_peripheral loader_ex p.
Proof.
  apply (planned_iff_listed_for_each_peripheral loader_ex "gd32e507z_eval"
           board_eval "drivers" "tests/drivers/i2c").
  - by apply (bool_decide_unpack _); vm_compute.
  - reflexivity.
  - by apply (bool_decide_unpack _); vm_compute.
Defined.

End SelectionSpec.

(** ** The per-board distribution of the plan summary *)

Module DistributionSpec.
Import Selector PyDictFacts Examples.

(** One pass through the loop body of [print_summary]. *)
Lemma board_stats_snoc plans plan :
  board_stats (plans ++ [plan])
  = let stats := board_stats plans in
    let stats :=
      if negb (PyDict.mem (board plan) stats)
      then PyDict.set (board plan) [] stats else stats in
    PyDict.set (board plan)
      (default [] (PyDict.get (board plan) stats) ++ [test_path plan]) stats.
Proof. unfold board_stats. by rewrite fold_left_app. Qed.

Lemma paths_of_snoc b plans plan :
  paths_of b (plans ++ [plan])
  = paths_of b plans ++ (if decide (board plan = b) then [test_path plan] else []).
Proof.
  unfold paths_of. rewrite filter_app, fmap_app. f_equal.
  rewrite filter_cons, filter_nil. by case_decide.
Qed.

Lemma paths_of_absent b plans : b ∉ board <$> plans → paths_of b plans = [].
Proof.
  unfold paths_of. induction plans as [|plan plans IH]; [done|].
  rewrite fmap_cons, not_elem_of_cons. intros [Hne Hnotin].
  rewrite filter_cons_False by done. by apply IH.
Qed.

Lemma board_stats_get plans b :
  PyDict.get b (board_stats plans)
  = if decide (b ∈ board <$> plans) then Some (paths_of b plans) else None.
Proof.
  induction plans as [|plan plans IH] using rev_ind.
  - case_decide as Hin; [by apply elem_of_nil in Hin | done].
  - rewrite board_stats_snoc, paths_of_snoc, fmap_app. simpl.
    destruct (decide (board plan = b)) as [<-|Hne].
    + rewrite get_set_eq. rewrite decide_True by (apply elem_of_app; right; left).
      f_equal. f_equal. unfold PyDict.mem.
      destruct (PyDict.get (board plan) (board_stats plans)) as [old|] eqn:Hold; simpl.
      * rewrite Hold. simpl. case_decide; by simplify_eq.
      * rewrite get_set_eq. simpl. case_decide; [done|].
        by rewrite paths_of_absent.
    + rewrite get_set_ne by done.
      assert (PyDict.get b
                (if negb (PyDict.mem (board plan) (board_stats plans))
                 then PyDict.set (board plan) [] (board_stats plans)
                 else board_stats plans)
              = PyDict.get b (board_stats plans)) as ->.
      { destruct (negb _); [by rewrite get_set_ne | done]. }
      rewrite IH, app_nil_r.
      destruct (decide (b ∈ board <$> plans)) as [Hin|Hnotin].
      * by rewrite decide_True by (apply elem_of_app; by left).
      * rewrite decide_False; [done|]. rewrite elem_of_app.
        intros [?|Hin]; [done|]. apply list_elem_of_singleton in Hin. done.
Qed.

Lemma first_occurrences_snoc xs x :
  first_occurrences (xs ++ [x])
  = if decide (x ∈ xs) then first_occurrences xs else first_occurrences xs ++ [x].
Proof.
  unfold first_occurrences. rewrite reverse_snoc. simpl.
  destruct (decide_rel elem_of x (reverse xs)) as [Hin|Hnotin].
  - rewrite decide_True; [done | by apply elem_of_reverse].
  - rewrite decide_False; [by rewrite reverse_cons | by rewrite <- elem_of_reverse].
Qed.

Lemma elem_of_first_occurrences xs x : x ∈ first_occurrences xs ↔ x ∈ xs.
Proof.
  unfold first_occurrences.
  by rewrite elem_of_reverse, elem_of_remove_dups, elem_of_reverse.
Qed.

Lemma NoDup_first_occurrences xs : NoDup (first_occurrences xs).
Proof.
  unfold first_occurrences. rewrite reverse_Permutation. apply NoDup_remove_dups.
Qed.

Lemma board_stats_keys plans :
  PyDict.keys (board_stats plans) = first_occurrences (board <$> plans).
Proof.
  induction plans as [|plan plans IH] using rev_ind; [done|].
  rewrite board_stats_snoc, fmap_app.
  change (board <$> [plan]) with [board plan].
  rewrite first_occurrences_snoc. cbv zeta. unfold PyDict.mem.
  destruct (PyDict.get (board plan) (board_stats plans)) as [old|] eqn:Hold; simpl.
  - assert (board plan ∈ PyDict.keys (board_stats plans)) as Hin.
    { apply mem_keys. unfold PyDict.mem. by rewrite Hold. }
    rewrite keys_set_present by done. rewrite IH in *.
    rewrite decide_True; [done | by apply elem_of_first_occurrences].
  - assert (board plan ∉ PyDict.keys (board_stats plans)) as Hnotin
      by by apply get_None_keys.
    rewrite keys_set_present, keys_set_fresh, IH by
      (try done; rewrite keys_set_fresh by done; apply elem_of_app; right; left).
    rewrite IH in Hnotin.
    rewrite decide_False; [done | by rewrite <- elem_of_first_occurrences].
Qed.

Lemma paths_total_set k v (stats : PyDict.t (list string)) :
  sum_list_with (λ item, length item.2) (PyDict.set k v stats)
    + length (default [] (PyDict.get k stats))
  = sum_list_with (λ item, length item.2) stats + length v.
Proof.
  induction stats as [|[k' v'] stats IH]; simpl; [lia|].
  destruct (String.eqb_spec k k') as [->|Hne]; simpl; lia.
Qed.

Lemma board_stats_total plans :
  sum_list_with (λ item, length item.2) (board_stats plans) = length plans.
Proof.
  induction plans as [|plan plans IH] using rev_ind; [done|].
  rewrite board_stats_snoc, length_app. simpl. unfold PyDict.mem.
  destruct (PyDict.get (board plan) (board_stats plans)) as [old|] eqn:Hold; simpl.
  - pose proof (paths_total_set (board plan) (old ++ [test_path plan])
                  (board_stats plans)) as H.
    rewrite Hold, length_app in H. simpl in H. rewrite Hold. simpl. lia.
  - pose proof (paths_total_set (board plan) [] (board_stats plans)) as H1.
    rewrite Hold in H1. simpl in H1. rewrite get_set_eq. simpl.
    pose proof (paths_total_set (board plan) [test_path plan]
                  (PyDict.set (board plan) [] (board_stats plans))) as H2.
    rewrite get_set_eq in H2. simpl in H2. lia.
Qed.

(** [print_summary] groups the plan by board: the keys of [board_stats]
    are the distinct boards of the plan in order of first appearance,
    each board maps to the test paths of its entries in plan order, a
    board without entry has no key, the lists together hold one path per
    entry, and the number of keys is the number of boards the summary
    reports. *)
Theorem board_stats_groups_plan (test_plans : list TestPlan) :
  PyDict.keys (board_stats test_plans) = first_occurrences (board <$> test_plans)
  ∧ NoDup (PyDict.keys (board_stats test_plans))
  ∧ (∀ b, PyDict.get b (board_stats test_plans)
          = if decide (b ∈ board <$> test_plans)
            then Some (test_path <$> filter (λ plan, board plan = b) test_plans)
            else None)
  ∧ sum_list_with (λ item, length item.2) (board_stats test_plans)
    = length test_plans
  ∧ length (PyDict.keys (board_stats test_plans)) = len_set (map board test_plans).
Proof.
  split; [apply board_stats_keys|]. split.
  { rewrite board_stats_keys. apply NoDup_first_occurrences. }
  split; [intros b; apply board_stats_get|].
  split; [apply board_stats_total|].
  rewrite board_stats_keys. symmetry.
  apply ExportSpec.len_set_enumeration; [apply NoDup_first_occurrences|].
  intros x. apply elem_of_first_occurrences.
Qed.

Lemma item_order_total {V} :
  Total (λ x y : string * V, (x.1 ≤ y.1)%string).
Proof. intros x y. apply (total String.le). Qed.

Lemma sorted_items_sorted {V} (d : PyDict.t V) :
  StronglySorted String.le (fst <$> sorted_items d).
Proof.
  apply (StronglySorted_fmap _ (λ x y : string * V, (x.1 ≤ y.1)%string)); [done|].
  apply Sorted_StronglySorted.
  - intros x y z. apply (transitivity (R:=String.le)).
  - apply (@Sorted_merge_sort _ _ _ item_order_total).
Qed.

Lemma sorted_items_permutation {V} (d : PyDict.t V) : sorted_items d ≡ₚ d.
Proof. apply merge_sort_Permutation. Qed.

(** The distribution printed by [print_summary] has one row per
    distinct board of the plan, in ascending order of board name, and a
    row (board, n) says that the plan has exactly n entries for the
    board; the counts add up to the length of the plan. *)
Theorem distribution_rows_sorted_and_exact (test_plans : list TestPlan) :
  StronglySorted String.le (fst <$> print_summary_distribution test_plans)
  ∧ NoDup (fst <$> print_summary_distribution test_plans)
  ∧ (∀ b n, (b, n) ∈ print_summary_distribution test_plans
            ↔ b ∈ board <$> test_plans
              ∧ n = length (filter (λ plan, board plan = b) test_plans))
  ∧ sum_list_with snd (print_summary_distribution test_plans) = length test_plans.
Proof.
  unfold print_summary_distribution.
  assert (fst <$> ((λ '(board, tests), (board, length tests))
                     <$> sorted_items (board_stats test_plans))
          = fst <$> sorted_items (board_stats test_plans)) as Hfst.
  { rewrite <- list_fmap_compose. apply list_fmap_ext. by intros i [b ts]. }
  rewrite Hfst. split; [apply sorted_items_sorted|]. split.
  { rewrite sorted_items_permutation.
    change (NoDup (PyDict.keys (board_stats test_plans))).
    rewrite board_stats_keys. apply NoDup_first_occurrences. }
  split.
  - intros b n. rewrite list_elem_of_fmap. split.
    + intros ([b' ts] & [= -> ->] & Hin). rewrite sorted_items_permutation in Hin.
      apply elem_of_get in Hin;
        [|rewrite board_stats_keys; apply NoDup_first_occurrences].
      rewrite board_stats_get in Hin. case_decide; [|done].
      injection Hin as <-. split; [done|]. apply length_fmap.
    + intros [Hb ->].
      exists (b, test_path <$> filter (λ plan, board plan = b) test_plans).
      split; [by rewrite length_fmap|]. rewrite sorted_items_permutation.
      change (test_path <$> filter (λ plan, board plan = b) test_plans)
        with (paths_of b test_plans).
      apply elem_of_get; [rewrite board_stats_keys; apply NoDup_first_occurrences|].
      rewrite board_stats_get. by rewrite decide_True.
  - transitivity (sum_list_with (λ item, length item.2)
                    (sorted_items (board_stats test_plans))).
    + generalize (sorted_items (board_stats test_plans)). intros rows.
      induction rows as [|[b ts] rows IH]; [done|]. csimpl. by rewrite IH.
    + rewrite sorted_items_permutation. apply board_stats_total.
Qed.

(** On the example plan: boards A, A, B with paths t1, t2, t1. *)
Lemma board_stats_example :
  board_stats plan_aab = [ ("A", ["t1"; "t2"]); ("B", ["t1"]) ].
Proof. reflexivity. Qed.

End DistributionSpec.

(** ** Choosing the boards and the tests to build *)

Module MatrixSpec.
Import Tester GeneratorFacts Examples.

Lemma sublist_list_filter {A} (f : A → bool) (l : list A) :
  sublist (List.filter f l) l.
Proof.
  induction l as [|x l IH]; simpl; [constructor|].
  destruct (f x); by constructor.
Qed.

Lemma elem_of_list_filter_bool {A} (f : A → bool) (l : list A) x :
  x ∈ List.filter f l ↔ x ∈ l ∧ f x = true.
Proof. by rewrite !list_elem_of_In, filter_In. Qed.

Lemma truthy_false {A} (l : list A) : PyStr.truthy l = false ↔ l = [].
Proof. by destruct l. Qed.

Lemma filter_boards_elem_of testcase all_gd32_boards platform_filter b :
  b ∈ filter_boards_for_testcase testcase all_gd32_boards platform_filter
  ↔ b ∈ all_gd32_boards
    ∧ (platforms testcase = [] ∨ b ∈ platforms testcase)
    ∧ (platform_filter = None ∨ platform_filter = Some []
       ∨ b ∈ default [] platform_filter).
Proof.
  unfold filter_boards_for_testcase.
  assert (b ∈ (if PyStr.truthy (platforms testcase)
               then List.filter (λ b, Selector.py_in b all_gd32_boards)
                      (platforms testcase)
               else all_gd32_boards)
          ↔ b ∈ all_gd32_boards
            ∧ (platforms testcase = [] ∨ b ∈ platforms testcase)) as Hfirst.
  { destruct (platforms testcase) as [|p ps] eqn:Hp; simpl PyStr.truthy; cbv iota.
    - split; [by auto | by intros [? _]].
    - rewrite elem_of_list_filter_bool, py_in_elem_of. split.
      + intros [? ?]. by auto.
      + intros [? [?|?]]; done. }
  destruct platform_filter as [[|f fs]|]; simpl Selector.filter_truthy; cbv iota.
  - rewrite Hfirst. split; [intros [? ?]; by auto | by intros (? & ? & _)].
  - rewrite elem_of_list_filter_bool, py_in_elem_of, Hfirst. simpl. split.
    + intros [[? ?] ?]. by auto.
    + intros (? & ? & [?|[?|?]]); done.
  - rewrite Hfirst. split; [intros [? ?]; by auto | by intros (? & ? & _)].
Qed.

(** [filter_boards_for_testcase] returns exactly the boards that are
    GD32 boards, that the test case allows (every board when its
    platform list is empty), and that the platform filter names (every
    board when the filter is absent or empty). *)
Theorem filter_boards_membership testcase all_gd32_boards platform_filter b :
  b ∈ filter_boards_for_testcase testcase all_gd32_boards platform_filter
  ↔ b ∈ all_gd32_boards
    ∧ (platforms testcase = [] ∨ b ∈ platforms testcase)
    ∧ (platform_filter = None ∨ platform_filter = Some []
       ∨ b ∈ default [] platform_filter).
Proof. apply filter_boards_elem_of. Qed.

(** The boards come in the order of the test case's platform list, or
    of the GD32 board list when the platform list is empty; a platform
    filter only removes boards, and an empty filter list removes none. *)
Theorem filter_boards_order testcase all_gd32_boards platform_filter :
  sublist (filter_boards_for_testcase testcase all_gd32_boards platform_filter)
    (filter_boards_for_testcase testcase all_gd32_boards None)
  ∧ sublist (filter_boards_for_testcase testcase all_gd32_boards None)
      (if PyStr.truthy (platforms testcase)
       then platforms testcase else all_gd32_boards)
  ∧ filter_boards_for_testcase testcase all_gd32_boards (Some [])
    = filter_boards_for_testcase testcase all_gd32_boards None.
Proof.
  unfold filter_boards_for_testcase. split; [|split; [|done]].
  - destruct (Selector.filter_truthy platform_filter); simpl.
    + apply sublist_list_filter.
    + done.
  - simpl. destruct (PyStr.truthy (platforms testcase)).
    + apply sublist_list_filter.
    + done.
Qed.

Lemma shares_tag_exists wanted tc_tags :
  shares_tag wanted tc_tags = true ↔ ∃ t, t ∈ wanted ∧ t ∈ tc_tags.
Proof.
  unfold shares_tag. rewrite bool_decide_eq_true. split.
  - intros Hne. apply set_choose_L in Hne as [t Ht].
    apply elem_of_intersection in Ht as [H1 H2].
    exists t. by rewrite !elem_of_list_to_set in *.
  - intros (t & H1 & H2) Hempty.
    assert (t ∈ (list_to_set wanted : gset string) ∩ list_to_set tc_tags) as Ht.
    { apply elem_of_intersection. by rewrite !elem_of_list_to_set. }
    rewrite Hempty in Ht. by apply elem_of_empty in Ht.
Qed.

(** The tag filter keeps, in their order, exactly the test cases that
    carry at least one of the requested tags; without requested tags it
    keeps every test case. *)
Theorem tag_filter_keeps_tagged args testcases :
  sublist (tag_filter args testcases) testcases
  ∧ (∀ tc, tc ∈ tag_filter args testcases
           ↔ tc ∈ testcases
             ∧ (args_tags args = None ∨ args_tags args = Some []
                ∨ ∃ t, t ∈ default [] (args_tags args) ∧ t ∈ tags tc)).
Proof.
  unfold tag_filter.
  destruct (args_tags args) as [[|t ts]|]; simpl Selector.filter_truthy; cbv iota.
  - split; [done|]. intros tc. split; [by auto | by intros [? _]].
  - split; [apply sublist_list_filter|]. intros tc.
    rewrite elem_of_list_filter_bool, shares_tag_exists. simpl. split.
    + intros [? ?]. by auto.
    + intros [? [?|[?|?]]]; done.
  - split; [done|]. intros tc. split; [by auto | by intros [? _]].
Qed.

Lemma build_matrix_concat args gd32_boards testcases :
  build_matrix args gd32_boards testcases
  = concat (map (λ tc,
                   map (λ board, (board, tc))
                     (filter_boards_for_testcase tc gd32_boards (args_platforms args)))
              testcases).
Proof.
  unfold build_matrix.
  rewrite (fold_left_append
             (λ tc, map (λ board, (board, tc))
                      (filter_boards_for_testcase tc gd32_boards
                         (args_platforms args)))); [done|].
  intros acc tc.
  rewrite (fold_left_append (λ board, [(board, tc)])); [|done].
  f_equal. induction (filter_boards_for_testcase _ _ _); simpl; by f_equal.
Qed.

(** The build matrix pairs every test case, in order, with each of its
    eligible boards, in order: a pair (board, test case) is in the
    matrix exactly when the test case is given and the board is among
    the boards [filter_boards_for_testcase] returns for it. *)
Theorem build_matrix_pairs args gd32_boards testcases :
  build_matrix args gd32_boards testcases
  = concat (map (λ tc,
                   map (λ board, (board, tc))
                     (filter_boards_for_testcase tc gd32_boards (args_platforms args)))
              testcases)
  ∧ (∀ board tc,
       (board, tc) ∈ build_matrix args gd32_boards testcases
       ↔ tc ∈ testcases
         ∧ board ∈ filter_boards_for_testcase tc gd32_boards (args_platforms args))
  ∧ (∀ board tc,
       (board, tc) ∈ build_matrix args gd32_boards testcases →
       board ∈ gd32_boards).
Proof.
  rewrite build_matrix_concat. split; [done|].
  assert (∀ board tc,
            (board, tc) ∈ concat (map (λ tc,
                   map (λ board, (board, tc))
                     (filter_boards_for_testcase tc gd32_boards (args_platforms args)))
              testcases)
            ↔ tc ∈ testcases
              ∧ board ∈ filter_boards_for_testcase tc gd32_boards
                          (args_platforms args)) as Hiff.
  { intros board tc. rewrite list_elem_of_In, in_concat. split.
    - intros (tasks & Htasks & Hin). apply in_map_iff in Htasks as (tc' & <- & Htc).
      apply in_map_iff in Hin as (b & [= -> ->] & Hb).
      by rewrite !list_elem_of_In.
    - intros [Htc Hb]. eexists. split.
      + apply in_map_iff. exists tc. split; [done | by apply list_elem_of_In].
      + apply in_map_iff. exists board. split; [done | by apply list_elem_of_In]. }
  split; [done|]. intros board tc [_ Hb]%Hiff.
  by apply filter_boards_elem_of in Hb as [? _].
Qed.

Lemma build_matrix_pairs_witness :
  build_matrix args_ex gd32_boards_ex [i2c_case; blinky_case]
  = [ ("gd32e507z_eval", i2c_case);
      ("gd32e507z_eval", blinky_case);
      ("gd32f407v_start", blinky_case);
      ("gd32vf103v_eval", blinky_case) ]
  ∧ "gd32e507z_eval" ∈ gd32_boards_ex.
Proof.
  split; [by vm_compute|].
  apply (proj2 (proj2 (build_matrix_pairs args_ex gd32_boards_ex
                         [i2c_case; blinky_case])) "gd32e507z_eval" i2c_case).
  apply list_elem_of_In. vm_compute. by left.
Defined.

End MatrixSpec.

(** ** Discovering boards, tests and samples *)

Module DiscoverySpec.
Import Tester GeneratorFacts MatrixSpec Examples.

Lemma sorted_strongly (names : list string) :
  StronglySorted String.le (PyStr.sorted names).
Proof. apply StronglySorted_merge_sort; apply _. Qed.

Lemma sorted_permutation (names : list string) : PyStr.sorted names ≡ₚ names.
Proof. apply merge_sort_Permutation. Qed.

(** Any ascending arrangement of the names is the one [sorted] gives. *)
Lemma sorted_unique (names arranged : list string) :
  arranged ≡ₚ names → StronglySorted String.le arranged →
  arranged = PyStr.sorted names.
Proof.
  intros Hperm Hsorted. apply (StronglySorted_unique String.le); [done| |].
  - apply sorted_strongly.
  - by rewrite Hperm, sorted_permutation.
Qed.

Lemma discovered_names entries :
  fold_left
    (λ boards board_dir,
       if is_dir board_dir
          && negb (Selector.py_in (dir_name board_dir) ["scripts"; "__pycache__"])
          && (has_board_yml board_dir
              || PyStr.truthy (dts_files board_dir)
              || PyStr.truthy (defconfig_files board_dir))
       then boards ++ [dir_name board_dir]
       else boards)
    entries []
  = dir_name <$> List.filter is_board_dir entries.
Proof.
  rewrite (fold_left_append
             (λ board_dir, if is_board_dir board_dir then [dir_name board_dir] else [])).
  - simpl. induction entries as [|e entries IH]; simpl; [done|].
    destruct (is_board_dir e); simpl; by rewrite IH.
  - intros acc e. unfold is_board_dir.
    destruct (_ && _ && _); [done | by rewrite app_nil_r].
Qed.

Lemma is_board_dir_true entry :
  is_board_dir entry = true
  ↔ is_dir entry = true
    ∧ dir_name entry ≠ "scripts" ∧ dir_name entry ≠ "__pycache__"
    ∧ (has_board_yml entry = true ∨ dts_files entry ≠ []
       ∨ defconfig_files entry ≠ []).
Proof.
  unfold is_board_dir.
  rewrite !andb_true_iff, !orb_true_iff, negb_true_iff.
  assert (Selector.py_in (dir_name entry) ["scripts"; "__pycache__"] = false
          ↔ dir_name entry ≠ "scripts" ∧ dir_name entry ≠ "__pycache__") as ->.
  { rewrite <- not_true_iff_false, py_in_elem_of, !elem_of_cons, elem_of_nil. tauto. }
  assert (∀ l : list string, PyStr.truthy l = true ↔ l ≠ []) as Htruthy
    by (by intros [|? ?]).
  rewrite !Htruthy. tauto.
Qed.

(** [discover_gd32_boards] returns nothing when the boards directory is
    missing. Otherwise it returns, in ascending order, the names of the
    entries that are directories, are not named [scripts] or
    [__pycache__], and hold a [board.yml], a [*.dts] file or a
    [*_defconfig] file, one name per such entry. *)
Theorem discover_gd32_boards_sorted_exact :
  discover_gd32_boards None = []
  ∧ ∀ entries,
      StronglySorted String.le (discover_gd32_boards (Some entries))
      ∧ discover_gd32_boards (Some entries)
        ≡ₚ dir_name <$> List.filter is_board_dir entries
      ∧ (∀ board,
           board ∈ discover_gd32_boards (Some entries)
           ↔ ∃ entry,
               entry ∈ entries ∧ dir_name entry = board
               ∧ is_dir entry = true
               ∧ board ≠ "scripts" ∧ board ≠ "__pycache__"
               ∧ (has_board_yml entry = true ∨ dts_files entry ≠ []
                  ∨ defconfig_files entry ≠ [])).
Proof.
  split; [done|]. intros entries. unfold discover_gd32_boards.
  rewrite discovered_names.
  split; [apply sorted_strongly|]. split; [apply sorted_permutation|].
  intros board. rewrite sorted_permutation, list_elem_of_fmap. split.
  - intros (entry & -> & Hin). apply elem_of_list_filter_bool in Hin as [Hin Hok].
    apply is_board_dir_true in Hok as (? & ? & ? & ?). by exists entry.
  - intros (entry & Hin & <- & ? & ? & ? & ?). exists entry. split; [done|].
    apply elem_of_list_filter_bool. split; [done|]. by apply is_board_dir_true.
Qed.

(** On an example listing: the [scripts] directory and the plain file
    are left out, and the two boards come out in ascending order. *)
Lemma discover_gd32_boards_example :
  discover_gd32_boards (Some listing_ex) = ["gd32e507z_eval"; "gd32f407v_start"].
Proof. by vm_compute. Qed.

Lemma truthy_or_empty {A} (l : list A) : (if PyStr.truthy l then l else []) = l.
Proof. by destruct l. Qed.

Lemma parse_testcases path_child path_resolve yaml_path document :
  load yaml_path = Loaded document →
  parse_yaml_file path_child path_resolve yaml_path "testcase"
  = testcase_of path_child path_resolve yaml_path
      <$> default [] (yaml_tests (default empty_document document)).
Proof.
  intros Hload. unfold parse_yaml_file. rewrite Hload. simpl.
  rewrite (fold_left_append
             (λ item, [testcase_of path_child path_resolve yaml_path item])).
  - simpl. unfold PyDict.items.
    induction (default [] (yaml_tests (default empty_document document)));
      simpl; by f_equal.
  - intros acc [name cfg]. unfold testcase_of. simpl.
    by rewrite truthy_or_empty.
Qed.

Lemma parse_sample path_child path_resolve yaml_path document :
  load yaml_path = Loaded document →
  parse_yaml_file path_child path_resolve yaml_path "sample"
  = [sample_of yaml_path document].
Proof.
  intros Hload. unfold parse_yaml_file. rewrite Hload. simpl.
  unfold sample_of. by rewrite truthy_or_empty.
Qed.

(** [parse_yaml_file] gives no case for a file that cannot be loaded or
    for a source type other than [testcase] and [sample]. A loaded
    [testcase.yaml] gives one case per entry of [tests], in order, named
    by the entry's key, with [platform_allow] taken when that key is
    present and [platforms] otherwise; a loaded [sample.yaml] gives
    exactly one case, named by [name] or else by the directory, also
    when the document is empty. *)
Theorem parse_yaml_file_cases path_child path_resolve yaml_path source_type :
  (load yaml_path = LoadError →
   parse_yaml_file path_child path_resolve yaml_path source_type = [])
  ∧ (source_type ≠ "testcase" → source_type ≠ "sample" →
     parse_yaml_file path_child path_resolve yaml_path source_type = [])
  ∧ (∀ document,
       load yaml_path = Loaded document →
       parse_yaml_file path_child path_resolve yaml_path "testcase"
       = map (testcase_of path_child path_resolve yaml_path)
           (default [] (yaml_tests (default empty_document document)))
       ∧ map name (parse_yaml_file path_child path_resolve yaml_path "testcase")
         = PyDict.keys (default [] (yaml_tests (default empty_document document)))
       ∧ parse_yaml_file path_child path_resolve yaml_path "sample"
         = [ {| name := default (parent_name yaml_path)
                          (yaml_name (default empty_document document));
                path := parent yaml_path;
                tags := default []
                          (common_tags
                             (default empty_common
                                (yaml_common (default empty_document document))));
                platforms := default []
                               (common_platform_allow
                                  (default empty_common
                                     (yaml_common (default empty_document document))));
                source_type := "sample" |} ]).
Proof.
  split; [|split].
  - intros Hload. unfold parse_yaml_file. by rewrite Hload.
  - intros Hnt Hns. unfold parse_yaml_file.
    destruct (load yaml_path); [done|].
    apply String.eqb_neq in Hnt, Hns. by rewrite Hnt, Hns.
  - intros document Hload.
    rewrite (parse_testcases _ _ _ _ Hload), (parse_sample _ _ _ _ Hload).
    split; [done|]. split; [|done].
    unfold PyDict.keys. rewrite <- list_fmap_compose. done.
Qed.

Lemma parse_yaml_file_cases_witness :
  map name (parse_yaml_file (λ a b, a +:+ "/" +:+ b) id yaml_ex "testcase")
  = ["kernel.common"]
  ∧ parse_yaml_file (λ a b, a +:+ "/" +:+ b) id yaml_ex "board" = [].
Proof.
  pose proof (parse_yaml_file_cases (λ a b, a +:+ "/" +:+ b) id yaml_ex "board")
    as (_ & Hother & Hloaded).
  split.
  - by rewrite (proj1 (proj2 (Hloaded _ eq_refl))).
  - by apply Hother.
Defined.

(** A test whose [platform_allow] is present but empty, or that has
    neither a [platform_allow] nor a non-empty [platforms] list, is built
    on every GD32 board when no platform filter is given: an empty
    [platform_allow] hides a [platforms] list next to it. *)
Theorem empty_platform_allow_means_all_boards path_child path_resolve yaml_path
    document tests test_name cfg all_gd32_boards :
  load yaml_path = Loaded (Some document) →
  yaml_tests document = Some tests →
  (test_name, cfg) ∈ tests →
  cfg_platform_allow cfg = Some []
  ∨ (cfg_platform_allow cfg = None
     ∧ (cfg_platforms cfg = None ∨ cfg_platforms cfg = Some [])) →
  ∃ tc,
    tc ∈ parse_yaml_file path_child path_resolve yaml_path "testcase"
    ∧ name tc = test_name
    ∧ platforms tc = []
    ∧ filter_boards_for_testcase tc all_gd32_boards None = all_gd32_boards.
Proof.
  intros Hload Htests Hin Hempty.
  exists (testcase_of path_child path_resolve yaml_path (test_name, cfg)).
  rewrite (parse_testcases _ _ _ _ Hload). simpl. rewrite Htests. simpl.
  assert (platforms (testcase_of path_child path_resolve yaml_path (test_name, cfg))
          = []) as Hplatforms.
  { unfold testcase_of. simpl.
    destruct Hempty as [->|[-> [->| ->]]]; done. }
  split; [by apply list_elem_of_fmap_2|]. split; [done|]. split; [done|].
  unfold filter_boards_for_testcase. by rewrite Hplatforms.
Qed.

Lemma empty_platform_allow_means_all_boards_witness :
  ∃ tc,
    tc ∈ parse_yaml_file (λ a b, a +:+ "/" +:+ b) id yaml_ex "testcase"
    ∧ name tc = "kernel.common"
    ∧ platforms tc = []
    ∧ filter_boards_for_testcase tc gd32_boards_ex None = gd32_boards_ex.
Proof.
  eapply (empty_platform_allow_means_all_boards _ _ yaml_ex).
  - reflexivity.
  - reflexivity.
  - apply list_elem_of_here.
  - by left.
Defined.

Lemma discovered_concat path_child path_resolve testcase_files sample_files :
  discover_tests_and_samples path_child path_resolve testcase_files sample_files
  = concat (map (λ f, parse_yaml_file path_child path_resolve f "testcase")
              testcase_files)
    ++ concat (map (λ f, parse_yaml_file path_child path_resolve f "sample")
                 sample_files).
Proof.
  unfold discover_tests_and_samples.
  rewrite (fold_left_append
             (λ f, parse_yaml_file path_child path_resolve f "sample")) by done.
  by rewrite (fold_left_append
                (λ f, parse_yaml_file path_child path_resolve f "testcase")).
Qed.

(** [discover_tests_and_samples] returns the cases of the
    [testcase.yaml] files first, then those of the [sample.yaml] files,
    file by file in the order found; every case from the first group
    has source type [testcase], every case from the second has source
    type [sample], and there is one sample case per [sample.yaml] that
    could be loaded. *)
Theorem discover_tests_and_samples_groups path_child path_resolve
    testcase_files sample_files :
  ∃ from_tests from_samples,
    discover_tests_and_samples path_child path_resolve testcase_files sample_files
    = from_tests ++ from_samples
    ∧ from_tests
      = concat (map (λ f, parse_yaml_file path_child path_resolve f "testcase")
                  testcase_files)
    ∧ from_samples
      = concat (map (λ f, parse_yaml_file path_child path_resolve f "sample")
                  sample_files)
    ∧ Forall (λ tc, source_type tc = "testcase") from_tests
    ∧ Forall (λ tc, source_type tc = "sample") from_samples
    ∧ length from_samples
      = length (List.filter
                  (λ f, match load f with LoadError => false | Loaded _ => true end)
                  sample_files).
Proof.
  eexists _, _. split; [apply discovered_concat|].
  split; [done|]. split; [done|]. split; [|split].
  - induction testcase_files as [|f fs IH]; simpl; [constructor|].
    apply Forall_app. split; [|done].
    destruct (load f) as [|document] eqn:Hload.
    + unfold parse_yaml_file. rewrite Hload. constructor.
    + rewrite (parse_testcases _ _ _ _ Hload).
      apply Forall_fmap, Forall_true. by intros [? ?].
  - induction sample_files as [|f fs IH]; simpl; [constructor|].
    apply Forall_app. split; [|done].
    destruct (load f) as [|document] eqn:Hload.
    + unfold parse_yaml_file. rewrite Hload. constructor.
    + rewrite (parse_sample _ _ _ _ Hload). by repeat constructor.
  - induction sample_files as [|f fs IH]; simpl; [done|].
    rewrite length_app, IH.
    destruct (load f) as [|document] eqn:Hload.
    + unfold parse_yaml_file. by rewrite Hload.
    + by rewrite (parse_sample _ _ _ _ Hload).
Qed.

End DiscoverySpec.

(** ** Running the builds *)

Module RunSpec.
Import Tester GeneratorFacts MatrixSpec Examples.





Lemma build_worker_names path_child board testcase args work_dir zephyr_base world :
  Tester.board
    (build_worker path_child board testcase args work_dir zephyr_base world)
  = board
  ∧ Tester.testcase
      (build_worker path_child board testcase args work_dir zephyr_base world)
    = name testcase.
Proof.
  unfold build_worker, west_build, build_result.
  by destruct (run world _) as [rc out| |e]; [destruct (rc =? 0)%Z|..].
Qed.



(** A name with slashes and dots. *)
Lemma build_worker_directory_example :
  build_dir (build_worker (λ a b, a +:+ "/" +:+ b) "gd32f407v_start" blinky_case
               args_ex "/work" "/zephyr" (world_of (Completed 0 "ok")))
  = Some "/work/gd32_build_gd32f407v_start_sample_basic_blinky".
Proof. reflexivity. Qed.

Lemma substring_length_exact n m s :
  n + m ≤ String.length s → String.length (String.substring n m s) = m.
Proof.
  revert n m. induction s as [|c s IH]; intros [|n] [|m] Hlen; simpl in *;
    try done; try lia.
  - f_equal. apply IH. lia.
  - apply (IH n 0). lia.
  - apply (IH n (S m)). lia.
Qed.

(** The captured output kept in a result: for a completed process it is
    the process output when that has at most [MAX_LOG_LENGTH]
    characters, and otherwise its last [MAX_LOG_LENGTH] characters; for
    a timeout it is a fixed text, and for another exception the
    exception text. *)
Theorem west_build_log_output board testcase pristine build_dir zephyr_base
    timeout world :
  match run world (build_command board testcase pristine build_dir zephyr_base) with
  | Completed returncode output =>
      String.length
        (log_output (west_build board testcase pristine build_dir zephyr_base
                       timeout world)) ≤ MAX_LOG_LENGTH
      ∧ (∃ dropped,
           output = dropped
                    +:+ log_output (west_build board testcase pristine build_dir
                                      zephyr_base timeout world))
      ∧ (String.length output ≤ MAX_LOG_LENGTH →
         log_output (west_build board testcase pristine build_dir zephyr_base
                       timeout world) = output)
      ∧ (MAX_LOG_LENGTH < String.length output →
         String.length
           (log_output (west_build board testcase pristine build_dir zephyr_base
                          timeout world)) = MAX_LOG_LENGTH)
  | TimeoutExpired =>
      log_output (west_build board testcase pristine build_dir zephyr_base
                    timeout world) = "Build timed out"
  | Raised e =>
      log_output (west_build board testcase pristine build_dir zephyr_base
                    timeout world) = e
  end.
Proof.
  unfold west_build.
  destruct (run world _) as [rc output| |e]; simpl; [|done..].
  assert (log_output
            (if (rc =? 0)%Z
             then {| board := board; testcase := name testcase; success := true;
                     message := "Build successful";
                     duration := (end_time world - start_time world)%Q;
                     build_dir := Some build_dir;
                     log_output := truncate_log output |}
             else {| board := board; testcase := name testcase; success := false;
                     message := "Build failed:" +:+ nl
                                +:+ PyStr.join nl (error_excerpt output);
                     duration := (end_time world - start_time world)%Q;
                     build_dir := Some build_dir;
                     log_output := truncate_log output |})
          = truncate_log output) as -> by by destruct (rc =? 0)%Z.
  destruct (BuildSpec.truncate_log_tail output) as [Hlen Htail].
  split; [done|]. split; [done|]. unfold truncate_log. split.
  - intros Hshort. destruct (Nat.ltb_spec MAX_LOG_LENGTH (String.length output)); [lia|done].
  - intros Hlong.
    destruct (Nat.ltb_spec MAX_LOG_LENGTH (String.length output)); [|lia].
    unfold PyStr.last_chars. apply substring_length_exact. lia.
Qed.

Lemma west_build_log_output_witness :
  log_output (west_build "gd32f407v_start" blinky_case "auto" "/tmp/build"
                "/zephyr" 600 (world_of (Completed 0 "ok")))
  = "ok".
Proof.
  pose proof (west_build_log_output "gd32f407v_start" blinky_case "auto"
                "/tmp/build" "/zephyr" 600 (world_of (Completed 0 "ok"))) as H.
  change (run (world_of (Completed 0 "ok")) _) with (Completed 0 "ok") in H.
  destruct H as (_ & _ & Hshort & _). apply Hshort.
  unfold MAX_LOG_LENGTH. simpl. lia.
Defined.

Lemma count_results_filter cond results :
  count_results cond results = length (List.filter cond results).
Proof.
  unfold count_results.
  assert (∀ acc, fold_left (λ acc r, if cond r then acc + 1 else acc) results acc
                 = acc + length (List.filter cond results)) as H.
  { induction results as [|r results IH]; intros acc; simpl; [lia|].
    rewrite IH. destruct (cond r); simpl; lia. }
  apply (H 0).
Qed.

Lemma passed_plus_failed results :
  count_results (λ r, success r) results
  + count_results (λ r, negb (success r)) results
  = length results.
Proof.
  rewrite !count_results_filter.
  induction results as [|r results IH]; simpl; [done|].
  destruct (success r); simpl; lia.
Qed.

Lemma failed_zero_all_passed results :
  count_results (λ r, negb (success r)) results = 0
  ↔ Forall (λ r, success r = true) results.
Proof.
  rewrite count_results_filter.
  induction results as [|r results IH]; simpl.
  - split; [constructor | done].
  - rewrite Forall_cons. destruct (success r); simpl.
    + rewrite IH. tauto.
    + split; [done | by intros [? _]].
Qed.

(** The JSON report counts every result once: [passed] and [failed]
    add up to [total], which is the number of results and of rows; the
    rows repeat board, test case, success flag, message and duration of
    the results in their order, and [failed] is zero exactly when every
    build succeeded. *)
Theorem json_report_counts now (build_results : list BuildResult) :
  let report := generate_json_report now build_results in
  passed (summary report) + failed (summary report) = total (summary report)
  ∧ total (summary report) = length build_results
  ∧ length (results report) = total (summary report)
  ∧ passed (summary report)
    = length (List.filter (λ r, success r) build_results)
  ∧ (failed (summary report) = 0
     ↔ ∀ r, r ∈ build_results → success r = true)
  ∧ (∀ i, results report !! i
          = (λ r, {| row_board := board r;
                     row_testcase := testcase r;
                     row_success := success r;
                     row_message := message r;
                     row_duration := duration r |}) <$> build_results !! i).
Proof.
  simpl. split; [apply passed_plus_failed|]. split; [done|].
  split; [apply length_map|]. split; [apply count_results_filter|]. split.
  - rewrite failed_zero_all_passed. apply Forall_forall.
  - intros i. apply list_lookup_fmap.
Qed.






Lemma run_loop {T} (g : nat → T → BuildResult) (tasks : list T)
    (f : list BuildResult → T → list BuildResult) (acc : list BuildResult) :
  (∀ acc task, f acc task = acc ++ [g (length acc) task]) →
  fold_left f tasks acc = acc ++ imap (λ i, g (length acc + i)) tasks.
Proof.
  intros Hf. revert acc g Hf.
  induction tasks as [|task tasks IH]; intros acc g Hf; simpl.
  - by rewrite app_nil_r.
  - rewrite Hf, (IH _ g Hf), <- app_assoc. simpl. f_equal.
    rewrite Nat.add_0_r. f_equal. apply imap_ext. intros i x _. simpl.
    rewrite length_app. simpl. f_equal. lia.
Qed.

Lemma main_sequential_results path_child args gd32_boards testcases work_dir
    zephyr_base world_at :
  (main_sequential path_child args gd32_boards testcases work_dir zephyr_base
     world_at).2
  = imap (λ i task, build_worker path_child task.1 task.2 args work_dir
                      zephyr_base (world_at i))
      (build_matrix args gd32_boards (tag_filter args testcases)).
Proof.
  unfold main_sequential.
  destruct testcases as [|tc0 tcs]; simpl PyStr.truthy; cbv iota; simpl negb;
    cbv iota.
  { unfold tag_filter. by destruct (Selector.filter_truthy (args_tags args)). }
  destruct (tag_filter args (tc0 :: tcs)) as [|tc1 tcs1] eqn:Hfiltered;
    simpl PyStr.truthy; cbv iota; simpl negb; cbv iota; [done|].
  destruct (build_matrix args gd32_boards (tc1 :: tcs1)) as [|task tasks];
    simpl PyStr.truthy; cbv iota; simpl negb; cbv iota; [done|].
  cbv zeta. unfold snd.
  rewrite (run_loop (λ i task, build_worker path_child task.1 task.2 args
                                 work_dir zephyr_base (world_at i))).
  - done.
  - by intros acc [b tc].
Qed.



(** A sequential run builds the matrix in order: there is one result
    per task, the result at position [i] is that of [build_worker] for
    task [i], and it names the task's board and test case. When no test
    case is given or none passes the tag filter, nothing is built. *)
Theorem main_sequential_builds_matrix path_child args gd32_boards testcases
    work_dir zephyr_base world_at :
  length (main_sequential path_child args gd32_boards testcases work_dir
            zephyr_base world_at).2
  = length (build_matrix args gd32_boards (tag_filter args testcases))
  ∧ (∀ i board tc,
       build_matrix args gd32_boards (tag_filter args testcases) !! i
       = Some (board, tc) →
       (main_sequential path_child args gd32_boards testcases work_dir
          zephyr_base world_at).2 !! i
       = Some (build_worker path_child board tc args work_dir zephyr_base
                 (world_at i)))
  ∧ map (λ r, (Tester.board r, Tester.testcase r))
      (main_sequential path_child args gd32_boards testcases work_dir
         zephyr_base world_at).2
    = map (λ task, (task.1, name task.2))
        (build_matrix args gd32_boards (tag_filter args testcases)).
Proof.
  rewrite main_sequential_results.
  split; [apply length_imap|]. split.
  - intros i board tc Htask. by rewrite list_lookup_imap, Htask.
  - generalize (build_matrix args gd32_boards (tag_filter args testcases)).
    intros tasks. generalize world_at. clear world_at.
    induction tasks as [|[b tc] tasks IH]; intros world_at; [done|].
    rewrite imap_cons. simpl. f_equal.
    + destruct (build_worker_names path_child b tc args work_dir zephyr_base
                  (world_at 0)) as [-> ->]. done.
    + apply (IH (world_at ∘ S)).
Qed.

Lemma main_sequential_builds_matrix_witness :
  (main_sequential (λ a b, a +:+ "/" +:+ b) args_ex gd32_boards_ex
     [i2c_case; blinky_case] "/work" "/zephyr"
     (λ _, world_of (Completed 0 "ok"))).2 !! 1
  = Some (build_worker (λ a b, a +:+ "/" +:+ b) "gd32f407v_start" blinky_case
            args_ex "/work" "/zephyr" (world_of (Completed 0 "ok"))).
Proof.
  apply (proj1 (proj2 (main_sequential_builds_matrix (λ a b, a +:+ "/" +:+ b)
                         args_ex gd32_boards_ex [i2c_case; blinky_case]
                         "/work" "/zephyr" (λ _, world_of (Completed 0 "ok"))))).
  by vm_compute.
Defined.


(** With a tag no test case carries, nothing is built and the run
    exits with 0; with the failing build of the example it exits with 1. *)
Lemma main_sequential_exit_code_examples :
  main_sequential (λ a b, a +:+ "/" +:+ b) args_ex gd32_boards_ex
    [hello_case] "/work" "/zephyr" (λ _, world_of TimeoutExpired)
  = (0%Z, [])
  ∧ (main_sequential (λ a b, a +:+ "/" +:+ b) args_ex gd32_boards_ex
       [blinky_case] "/work" "/zephyr" (λ _, world_of TimeoutExpired)).1
    = 1%Z.
Proof. by vm_compute. Qed.




(** The document for one passed and one timed-out build. *)
Lemma junit_document_example :
  length (junit_xml_lines (λ _ _, "0.00")
            [ west_build "gd32f407v_start" blinky_case "auto" "/tmp/build"
                "/zephyr" 600 (world_of (Completed 0 "ok")); timeout_result ])
  = 12.
Proof. by vm_compute. Qed.

End RunSpec.

(** ** Further properties of inference, summary and failure messages *)

Module FurtherSpec.
Import Selector Tester PyStrFacts LineFacts Examples.

Lemma lower_char_idempotent c :
  PyStr.lower_char (PyStr.lower_char c) = PyStr.lower_char c.
Proof. by destruct c as [[] [] [] [] [] [] [] []]. Qed.

Lemma lower_idempotent s : PyStr.lower (PyStr.lower s) = PyStr.lower s.
Proof.
  induction s as [|c s IH]; simpl; [done|].
  by rewrite lower_char_idempotent, IH.
Qed.

Lemma lower_app s t : PyStr.lower (s +:+ t) = PyStr.lower s +:+ PyStr.lower t.
Proof.
  induction s as [|c s IH]; simpl; [done|].
  by rewrite !app_cons; simpl; rewrite IH.
Qed.

(** Inference ignores letter case: a path and its lower-cased form
    require the same peripherals, and so do two paths that differ only
    in the case of their letters. *)
Theorem inference_ignores_case (test_path other_path : string) :
  _infer_required_peripherals (PyStr.lower test_path)
  = _infer_required_peripherals test_path
  ∧ (PyStr.lower test_path = PyStr.lower other_path →
     _infer_required_peripherals test_path
     = _infer_required_peripherals other_path).
Proof.
  split.
  - unfold _infer_required_peripherals. by rewrite lower_idempotent.
  - intros Hsame. unfold _infer_required_peripherals. by rewrite Hsame.
Qed.

Lemma inference_ignores_case_witness :
  _infer_required_peripherals "Tests/Drivers/I2C"
  = _infer_required_peripherals "tests/drivers/i2c".
Proof.
  apply (proj2 (inference_ignores_case "Tests/Drivers/I2C" "tests/drivers/i2c")).
  reflexivity.
Defined.

Lemma len_set_le (xs : list string) : len_set xs ≤ length xs.
Proof.
  rewrite ExportSpec.len_set_remove_dups.
  induction xs as [|x xs IH]; simpl; [done|].
  destruct (decide_rel elem_of x xs); simpl; lia.
Qed.

Lemma len_set_zero (xs : list string) : len_set xs = 0 ↔ xs = [].
Proof.
  split; [|by intros ->].
  rewrite ExportSpec.len_set_remove_dups. intros Hlen.
  destruct xs as [|x xs]; [done|].
  assert (x ∈ remove_dups (x :: xs)) as Hin by (apply elem_of_remove_dups; left).
  destruct (remove_dups (x :: xs)); [by apply elem_of_nil in Hin | done].
Qed.

(** In the summary, the number of boards and the number of unique
    tests never exceed the number of plan entries, and each is zero only
    for the empty plan. *)
Theorem summary_counts_bounded (test_plans : list TestPlan) :
  let counts := print_summary_counts test_plans in
  counts.1.2 ≤ counts.1.1
  ∧ counts.2 ≤ counts.1.1
  ∧ (counts.1.2 = 0 ↔ test_plans = [])
  ∧ (counts.2 = 0 ↔ test_plans = []).
Proof.
  unfold print_summary_counts. simpl.
  fold (len_set (map Selector.board test_plans)).
  fold (len_set (map test_path test_plans)).
  pose proof (len_set_le (map Selector.board test_plans)) as Hb.
  pose proof (len_set_le (map test_path test_plans)) as Ht.
  rewrite length_map in Hb, Ht.
  split; [done|]. split; [done|].
  rewrite !len_set_zero. split; split; intros H; subst; try done.
  - by destruct test_plans.
  - by destruct test_plans.
Qed.

Lemma app_assoc_string a b c : (a +:+ b) +:+ c = a +:+ (b +:+ c).
Proof. induction a as [|x a IH]; [done|]. by rewrite !app_cons, IH. Qed.

(** The second marker test of [west_build] adds nothing: a line that
    contains [fatal error:] contains [error:]. *)
Lemma is_error_line_single_test line :
  is_error_line line = PyStr.contains "error:" (PyStr.lower line).
Proof.
  unfold is_error_line.
  destruct (PyStr.contains "error:" (PyStr.lower line)) eqn:Herr; [done|].
  simpl. apply contains_false_not_occurs. intros (pre & post & Hocc).
  apply contains_false_not_occurs in Herr. apply Herr.
  exists (pre +:+ "fatal "), post. rewrite Hocc.
  by rewrite app_assoc_string.
Qed.

Lemma split_go_nonempty sep cur s : PyStr.split_go sep cur s ≠ [].
Proof.
  revert cur. induction s as [|c s IH]; intros cur; simpl; [done|].
  destruct (Ascii.eqb c sep); [done | apply IH].
Qed.

(** The lines quoted in the message of a failed build are never empty
    as a list. When some line of the output carries an error marker,
    every quoted line is a line of the output that contains [error:] in
    some letter case; otherwise every quoted line is a line of the
    output with surrounding white space removed. *)
Theorem error_excerpt_quotes_output (output : string) :
  error_excerpt output ≠ []
  ∧ ((∃ line, line ∈ PyStr.split nl_char output ∧ is_error_line line = true) →
     ∀ line, line ∈ error_excerpt output →
       line ∈ PyStr.split nl_char output
       ∧ PyStr.occurs "error:" (PyStr.lower line))
  ∧ ((∀ line, line ∈ PyStr.split nl_char output → is_error_line line = false) →
     ∀ line, line ∈ error_excerpt output →
       line ∈ PyStr.split nl_char (PyStr.strip output)).
Proof.
  pose proof (BuildSpec.error_excerpt_cases output) as Hcases.
  destruct (List.filter is_error_line (PyStr.split nl_char output))
    as [|e es] eqn:Hfilter.
  - destruct Hcases as [Hsuffix Hlen]. split; [|split].
    + intros Hnil. rewrite Hnil in Hlen. simpl in Hlen.
      pose proof (split_go_nonempty nl_char "" (PyStr.strip output)) as Hne.
      unfold PyStr.split in Hlen.
      destruct (PyStr.split_go nl_char "" (PyStr.strip output)); [done|].
      simpl in Hlen. lia.
    + intros (line & Hin & Herr).
      assert (line ∈ List.filter is_error_line (PyStr.split nl_char output)) as H
        by by apply MatrixSpec.elem_of_list_filter_bool.
      rewrite Hfilter in H. by apply elem_of_nil in H.
    + intros _ line Hin. destruct Hsuffix as [dropped ->].
      apply elem_of_app. by right.
  - destruct Hcases as [Hsuffix Hlen]. split; [|split].
    + intros Hnil. rewrite Hnil in Hlen. simpl in Hlen. lia.
    + intros _ line Hin.
      assert (line ∈ List.filter is_error_line (PyStr.split nl_char output)) as H.
      { rewrite Hfilter. destruct Hsuffix as [dropped ->].
        apply elem_of_app. by right. }
      apply MatrixSpec.elem_of_list_filter_bool in H as [Hline Herr].
      split; [done|]. apply contains_occurs.
      by rewrite <- is_error_line_single_test.
    + intros Hnone line Hin. exfalso.
      assert (e ∈ List.filter is_error_line (PyStr.split nl_char output)) as H
        by (rewrite Hfilter; left).
      apply MatrixSpec.elem_of_list_filter_bool in H as [Hline Herr].
      rewrite (Hnone e Hline) in Herr. done.
Qed.

Lemma error_excerpt_quotes_output_witness :
  "FATAL ERROR: command exited with status 1: cmake"
    ∈ PyStr.split nl_char failing_output
  ∧ PyStr.occurs "error:"
      (PyStr.lower "FATAL ERROR: command exited with status 1: cmake").
Proof.
  apply (proj1 (proj2 (error_excerpt_quotes_output failing_output))).
  - exists "main.c:3:10: fatal error: missing.h: No such file".
    split; [|by vm_compute].
    apply list_elem_of_In. vm_compute. right. by left.
  - apply list_elem_of_In. vm_compute. right. by left.
Defined.

End FurtherSpec.
